(** * notebook/flaml_forecast.ipynb: the data-wrangling glue of the CO2 forecast

    The notebook loads the weekly Mauna Loa CO2 series, resamples it to
    month starts, back-fills the gaps, holds out the last [time_horizon]
    rows and hands the rest, with a dictionary of settings, to the AutoML
    collaborator.  The pandas values are embedded as lists: a Series is a
    list of (label, value) pairs in index order, a DataFrame with the
    columns 'index' and 'co2' a list of rows.  NaN is [None]. *)

From stdpp Require Import gmap strings list fin_maps.
From Stdlib Require QArith.

Local Open Scope Z_scope.

(** ** Timestamps *)

(** A calendar date of the weekly index; the time of day plays no role in
    monthly binning. *)
Record Timestamp := mkTimestamp { year : Z; month : Z; day : Z }.

(** The month-start bin ('MS') a date falls into, counted in months: the
    label of the resampled index. *)
Definition month_start (t : Timestamp) : Z := 12 * year t + (month t - 1).

(** A row of [data] after [to_frame().reset_index()]: the former index
    becomes the column 'index', the values stay in the column 'co2'. *)
Record Row (V : Type) := mkRow { index : Z; co2 : option V }.
Arguments mkRow {V} _ _.
Arguments index {V} _.
Arguments co2 {V} _.

(** ** Python slicing *)

(** A slice bound [k] on a sequence of length [n], as PySlice_AdjustIndices
    clamps it for a step of 1: negative bounds count from the end, and both
    ends saturate. *)
Definition adjust_index (n k : Z) : Z :=
  if decide (k < 0) then Z.max (k + n) 0 else Z.min k n.

(** [l[:k]] *)
Definition slice_to {A} (k : Z) (l : list A) : list A :=
  take (Z.to_nat (adjust_index (Z.of_nat (length l)) k)) l.

(** [l[k:]] *)
Definition slice_from {A} (k : Z) (l : list A) : list A :=
  drop (Z.to_nat (adjust_index (Z.of_nat (length l)) k)) l.

(** ** Loading and preprocessing (cell 5) *)

Section Preprocess.
Context {V : Type}.

(** The mean of the non-missing floats of a bin; [None] when the IEEE
    result is NaN. *)
Variable mean : list V → option V.

(** The non-missing values of the rows of [s] that fall into month [m],
    in series order. *)
Definition bin (s : list (Timestamp * option V)) (m : Z) : list V :=
  omap (λ r, if decide (month_start r.1 = m) then r.2 else None) s.

(** [.mean()] of one bin skips NaN; a bin without values gives NaN. *)
Definition bin_mean (vs : list V) : option V :=
  match vs with
  | [] => None
  | _ => mean vs
  end.

(** [data['co2'].resample('MS').mean()]: one row per month start from
    the month of the earliest date to the month of the latest one. *)
Definition resample_MS_mean (s : list (Timestamp * option V))
  : list (Z * option V) :=
  match month_start ∘ fst <$> s with
  | [] => []
  | m0 :: ms =>
      let lo := foldr Z.min m0 ms in
      let hi := foldr Z.max m0 ms in
      (λ m, (m, bin_mean (bin s m))) <$> seqZ lo (hi - lo + 1)
  end.

(** The first valid observation of a series, if any. *)
Definition first_valid (s : list (Z * option V)) : option V :=
  head (omap snd s).

(** [s.bfill()]: a NaN takes the next valid observation; the labels are
    kept. *)
Fixpoint bfill (s : list (Z * option V)) : list (Z * option V) :=
  match s with
  | [] => []
  | (i, x) :: r =>
      (i, match x with Some v => Some v | None => first_valid r end)
        :: bfill r
  end.

(** [s.fillna(other)] for two series over the same index: a NaN of [s]
    takes the value [other] has at that label. *)
Definition fillna (s other : list (Z * option V)) : list (Z * option V) :=
  zip_with
    (λ a b, (a.1, match a.2 with Some v => Some v | None => b.2 end))
    s other.

(** The last valid observation of a series, if any. *)
Definition last_valid (s : list (Z * option V)) : option V :=
  last (omap snd s).

(** The fill as the specification words it, to compare with the one
    above: a gap takes the nearest observation before it when there is
    one, and the nearest after it otherwise. *)
Definition spec_forward_back_fill (s : list (Z * option V))
  : list (Z * option V) :=
  imap (λ i a,
          (a.1,
           match a.2 with
           | Some v => Some v
           | None =>
               match last_valid (take i s) with
               | Some v => Some v
               | None => first_valid (drop (S i) s)
               end
           end)) s.

(** [s.to_frame().reset_index()] *)
Definition reset_index (s : list (Z * option V)) : list (Row V) :=
  (λ a, mkRow a.1 a.2) <$> s.

(** Cell 5 after [load_pandas]: lines 54 to 56. *)
Definition preprocess (weekly : list (Timestamp * option V))
  : list (Row V) :=
  let data := resample_MS_mean weekly in
  let data := fillna data (bfill data) in
  reset_index data.

(** ** The splitter (cell 6) *)

Definition num_samples (data : list (Row V)) : Z := Z.of_nat (length data).
Definition time_horizon : Z := 12.
Definition split_idx (data : list (Row V)) : Z :=
  num_samples data - time_horizon.

(** The row position both slices of the splitter resolve [split_idx]
    to. *)
Definition cut (data : list (Row V)) : nat :=
  Z.to_nat (adjust_index (num_samples data) (split_idx data)).

(** [data[:split_idx]]: both columns. *)
Definition X_train (data : list (Row V)) : list (Row V) :=
  slice_to (split_idx data) data.

(** [data[split_idx:]['index'].to_frame('ds')]: the dates alone. *)
Definition X_test (data : list (Row V)) : list Z :=
  index <$> slice_from (split_idx data) data.

(** [data[split_idx:]['co2']] *)
Definition y_test (data : list (Row V)) : list (option V) :=
  co2 <$> slice_from (split_idx data) data.

(** The test table put back together: each date of [X_test] with the
    value [y_test] has in the same row. *)
Definition test_rows (data : list (Row V)) : list (Row V) :=
  zip_with mkRow (X_test data) (y_test data).

End Preprocess.

(** ** The settings (cell 9) and keyword arguments *)

(** The values the settings dictionary holds. *)
Inductive PyVal := PyInt (n : Z) | PyStr (s : string).

(** The exceptions the interpreter itself can raise in the notebook's own
    expressions. *)
Inductive PyErr := KeyError (key : string) | TypeError (msg : string).

Definition settings : gmap string PyVal :=
  list_to_map
    [ ("time_budget", PyInt 180);
      ("metric", PyStr "mape");
      ("task", PyStr "forecast");
      ("log_file_name", PyStr "CO2_forecast.log");
      ("eval_method", PyStr "holdout");
      ("seed", PyInt 7654321) ].

(** A call with a double-starred dictionary [d] and an explicit keyword
    [k=v]: the two must not collide. *)
Definition keywords (d : gmap string PyVal) (k : string) (v : PyVal)
  : PyErr + gmap string PyVal :=
  match d !! k with
  | Some _ => inl (TypeError k)
  | None => inr (<[k := v]> d)
  end.

(** ** The notebook as a program over its collaborators *)

Section Notebook.
Context {V Exn Obj : Type}.

(** What [print] and [plt.plot] are handed. *)
Inductive Value :=
| VStr (s : string)
| VObj (o : Obj)
| VFormat (before : string) (o : Obj) (after : string)
| VSeries (y : list (option V)).

Inductive PlotCmd :=
| Title (s : string)
| XLabel (s : string)
| YLabel (s : string)
| Scatter (x y : Obj)
| Step (x y : Obj) (where_ : string)
| Show
| Plot (x : list Z) (y : Value) (label : string)
| Legend.

(** One entry per call that leaves the notebook, with its arguments. *)
Inductive Event :=
| EvShell (cmd : string)
| EvImport (module : string)
| EvLoadPandas
| EvAutoML
| EvFit (automl : Obj) (dataframe : list (Row V)) (label : string * string)
    (kwargs : gmap string PyVal)
| EvGetattr (o : Obj) (name : string)
| EvPrint (args : list Value)
| EvOpen (file mode : string)
| EvPickleDump (o f : Obj)
| EvClose (f : Obj)
| EvPredict (automl : Obj) (X : list Z)
| EvLossScore (metric : string) (y_pred : Obj) (y_true : list (option V))
| EvGetOutputFromLog (filename : PyVal) (time_budget : Z)
| EvOneMinus (h : Obj)
| EvPlt (c : PlotCmd).

(** The answers of the collaborators during one run: each call returns
    or raises. *)
Record World := mkWorld {
  import_module : string → Exn + unit;
  load_pandas : Exn + list (Timestamp * option V);
  AutoML : Exn + Obj;
  fit : Obj → list (Row V) → string * string → gmap string PyVal
        → Exn + unit;
  getattr : Obj → string → Exn + Obj;
  print : list Value → Exn + unit;
  open : string → string → Exn + Obj;
  pickle_dump : Obj → Obj → Exn + unit;
  close : Obj → Exn + unit;
  predict : Obj → list Z → Exn + Obj;
  sklearn_metric_loss_score : string → Obj → list (option V) → Exn + Obj;
  get_output_from_log : PyVal → Z
                        → Exn + (Obj * Obj * Obj * list Obj * Obj);
  one_minus : Obj → Exn + Obj;
  plt : PlotCmd → Exn + unit
}.

(** The same collaborators serving another dataset. *)
Definition with_data (w : World) (d : list (Timestamp * option V)) : World :=
  mkWorld (import_module w) (inr d) (AutoML w) (fit w) (getattr w)
    (print w) (open w) (pickle_dump w) (close w) (predict w)
    (sklearn_metric_loss_score w) (get_output_from_log w) (one_minus w)
    (plt w).

Definition error_of {A} (r : Exn + A) : option Exn :=
  match r with inl e => Some e | inr _ => None end.

(** The exception a call raises in world [w], if it raises. *)
Definition raises (w : World) (ev : Event) : option Exn :=
  match ev with
  | EvShell _ => None
  | EvImport m => error_of (import_module w m)
  | EvLoadPandas => error_of (load_pandas w)
  | EvAutoML => error_of (AutoML w)
  | EvFit a df l kw => error_of (fit w a df l kw)
  | EvGetattr o n => error_of (getattr w o n)
  | EvPrint args => error_of (print w args)
  | EvOpen f m => error_of (open w f m)
  | EvPickleDump o f => error_of (pickle_dump w o f)
  | EvClose f => error_of (close w f)
  | EvPredict a X => error_of (predict w a X)
  | EvLossScore m p y => error_of (sklearn_metric_loss_score w m p y)
  | EvGetOutputFromLog f b => error_of (get_output_from_log w f b)
  | EvOneMinus h => error_of (one_minus w h)
  | EvPlt c => error_of (plt w c)
  end.

(** A [with] block's exit handler, the one call that still runs while an
    exception unwinds. *)
Definition is_cleanup (ev : Event) : bool :=
  match ev with EvClose _ => true | _ => false end.

(** The calls made inside the one [with] block: its body and its exit
    handler. *)
Definition in_with_block (ev : Event) : bool :=
  match ev with EvPickleDump _ _ | EvClose _ => true | _ => false end.

(** A computation extends the trace of calls made so far and returns a
    value or an exception. *)
Definition M (A : Type) : Type := list Event → list Event * (Exn + A).

#[local] Instance M_ret : MRet M := λ A a tr, (tr, inr a).
#[local] Instance M_bind : MBind M := λ A B k m tr,
  match m tr with
  | (tr', inl e) => (tr', inl e)
  | (tr', inr a) => k a tr'
  end.

Definition raise {A} (e : Exn) : M A := λ tr, (tr, inl e).

(** Make the call [ev], whose outcome is [r]. *)
Definition call {A} (ev : Event) (r : Exn + A) : M A :=
  λ tr, (tr ++ [ev], r).

(** [for x in xs: body(x)] *)
Fixpoint for_each {A} (xs : list A) (body : A → M unit) : M unit :=
  match xs with
  | [] => mret tt
  | x :: xs' => body x ;; for_each xs' body
  end.

Variable mean : list V → option V.
Variable python_error : PyErr → Exn.
Variable w : World.

(** [with open(file, mode) as f: body]: the file is closed on the way
    out whether the body returned or raised; its exit handler
    suppresses nothing, and an exception of [close] replaces the
    pending one. *)
Definition with_open {A} (file mode : string) (body : Obj → M A) : M A :=
  f ← call (EvOpen file mode) (open w file mode);
  λ tr,
    let '(tr1, r) := body f tr in
    match call (EvClose f) (close w f) tr1 with
    | (tr2, inl e) => (tr2, inl e)
    | (tr2, inr _) => (tr2, r)
    end.

(** [d[k]] *)
Definition subscript (d : gmap string PyVal) (k : string) : M PyVal :=
  match d !! k with
  | Some v => mret v
  | None => raise (python_error (KeyError k))
  end.

Definition do_import (m : string) : M unit :=
  call (EvImport m) (import_module w m).
Definition do_getattr (o : Obj) (name : string) : M Obj :=
  call (EvGetattr o name) (getattr w o name).
Definition do_print (args : list Value) : M unit :=
  call (EvPrint args) (print w args).
Definition do_plt (c : PlotCmd) : M unit :=
  call (EvPlt c) (plt w c).

(** Cell 3: the shell escape; its exit status is not looked at. *)
Definition cell_install : M unit :=
  call (EvShell "pip install flaml[notebook,forecast]") (inr tt).

(** Cell 5 *)
Definition cell_load : M (list (Row V)) :=
  do_import "statsmodels.api" ;;
  data ← call EvLoadPandas (load_pandas w);
  mret (preprocess mean data).

(** Cell 8 *)
Definition cell_automl : M Obj :=
  do_import "flaml" ;;
  call EvAutoML (AutoML w).

(** Cell 10 *)
Definition cell_fit (automl : Obj) (X_train : list (Row V)) : M unit :=
  match keywords settings "period" (PyInt time_horizon) with
  | inl e => raise (python_error e)
  | inr kwargs =>
      call (EvFit automl X_train ("index", "co2") kwargs)
        (fit w automl X_train ("index", "co2") kwargs)
  end.

(** Cell 12 *)
Definition cell_best (automl : Obj) : M unit :=
  a ← do_getattr automl "best_estimator";
  do_print [VStr "Best ML leaner:"; VObj a] ;;
  a ← do_getattr automl "best_config";
  do_print [VStr "Best hyperparmeter config:"; VObj a] ;;
  a ← do_getattr automl "best_loss";
  do_print [VFormat "Best mape on validation data: " a ""] ;;
  a ← do_getattr automl "best_config_train_time";
  do_print [VFormat "Training duration of best run: " a "s"].

(** Cell 13 *)
Definition cell_estimator (automl : Obj) : M unit :=
  m ← do_getattr automl "model";
  e ← do_getattr m "estimator";
  do_print [VObj e].

(** Cell 14 *)
Definition cell_pickle (automl : Obj) : M unit :=
  do_import "pickle" ;;
  with_open "automl.pkl" "wb" (λ f,
    call (EvPickleDump automl f) (pickle_dump w automl f)).

(** Cell 15, first line *)
Definition cell_predict (automl : Obj) (X_test : list Z) : M Obj :=
  call (EvPredict automl X_test) (predict w automl X_test).

(** Cell 15, the two prints *)
Definition cell_labels (flaml_y_pred : Obj) (y_test : list (option V))
  : M unit :=
  do_print [VStr "Predicted labels"; VObj flaml_y_pred] ;;
  do_print [VStr "True labels"; VSeries y_test].

(** Cell 16 *)
Definition cell_metric (flaml_y_pred : Obj) (y_test : list (option V))
  : M unit :=
  do_import "flaml.ml" ;;
  s ← call (EvLossScore "mape" flaml_y_pred y_test)
        (sklearn_metric_loss_score w "mape" flaml_y_pred y_test);
  do_print [VStr "mape"; VStr "="; VObj s].

(** Cell 18 *)
Definition cell_log : M (Obj * Obj * Obj * list Obj * Obj) :=
  do_import "flaml.data" ;;
  name ← subscript settings "log_file_name";
  h ← call (EvGetOutputFromLog name 180) (get_output_from_log w name 180);
  for_each h.1.2 (λ config, do_print [VObj config]) ;;
  mret h.

(** Cell 19 *)
Definition cell_learning_curve (h : Obj * Obj * Obj * list Obj * Obj)
  : M unit :=
  let '(time_history, best_valid_loss_history, valid_loss_history, _, _) :=
    h in
  do_import "matplotlib.pyplot" ;;
  do_import "numpy" ;;
  do_plt (Title "Learning Curve") ;;
  do_plt (XLabel "Wall Clock Time (s)") ;;
  do_plt (YLabel "Validation Accuracy") ;;
  acc ← call (EvOneMinus valid_loss_history) (one_minus w valid_loss_history);
  do_plt (Scatter time_history acc) ;;
  best ← call (EvOneMinus best_valid_loss_history)
           (one_minus w best_valid_loss_history);
  do_plt (Step time_history best "post") ;;
  do_plt Show.

(** Cell 20 *)
Definition cell_forecast_plot (X_test : list Z) (y_test : list (option V))
    (flaml_y_pred : Obj) : M unit :=
  do_import "matplotlib.pyplot" ;;
  do_plt (Plot X_test (VSeries y_test) "Actual level") ;;
  do_plt (Plot X_test (VObj flaml_y_pred) "FLAML forecast") ;;
  do_plt (XLabel "Date") ;;
  do_plt (YLabel "CO2 Levels") ;;
  do_plt Legend.

(** Cells 8 to 14 and the first line of cell 15: fit on the training
    table, report, save, and predict the held-out dates. *)
Definition forecast (train : list (Row V)) (dates : list Z) : M Obj :=
  automl ← cell_automl;
  cell_fit automl train ;;
  cell_best automl ;;
  cell_estimator automl ;;
  cell_pickle automl ;;
  cell_predict automl dates.

(** The run up to and including [automl.predict(X_test)]. *)
Definition predictions : M Obj :=
  cell_install ;;
  data ← cell_load;
  forecast (X_train data) (X_test data).

(** The whole notebook, cell after cell. *)
Definition notebook : M unit :=
  cell_install ;;
  data ← cell_load;
  flaml_y_pred ← forecast (X_train data) (X_test data);
  cell_labels flaml_y_pred (y_test data) ;;
  cell_metric flaml_y_pred (y_test data) ;;
  h ← cell_log;
  cell_learning_curve h ;;
  cell_forecast_plot (X_test data) (y_test data) flaml_y_pred.

(** Running from an empty trace. *)
Definition run {A} (m : M A) : list Event * (Exn + A) := m [].

(** ** Predicates on traces *)

(** Every call [m] adds to a trace satisfies [P]. *)
Definition emits (P : Event → Prop) {A} (m : M A) : Prop :=
  ∀ tr, Forall P tr → Forall P (m tr).1.

(** No call of the trace raised. *)
Definition quiet (tr : list Event) : Prop :=
  Forall (λ ev, raises w ev = None) tr.

(** The exception of the last call of [l] that raised. *)
Definition last_raised (l : list Event) : option Exn :=
  last (omap (raises w) l).

(** The trace of a run that an exception [e] of a collaborator ended:
    calls that returned, the first call that raised, and after it exit
    handlers only, and none at all outside a [with] block; [e] is what
    the last raising call raised. *)
Definition unwound (tr : list Event) (e : Exn) : Prop :=
  ∃ pre ev post,
    tr = pre ++ ev :: post ∧ quiet pre ∧ is_Some (raises w ev)
    ∧ Forall (λ ev', is_cleanup ev' = true) post
    ∧ (in_with_block ev = false → post = [])
    ∧ last_raised (ev :: post) = Some e.

Definition outcome {A} (tr : list Event) (r : Exn + A) : Prop :=
  match r with
  | inr _ => quiet tr
  | inl e => quiet tr ∨ unwound tr e
  end.

(** [m] neither swallows an exception nor goes on after one. *)
Definition propagating {A} (m : M A) : Prop :=
  ∀ tr, quiet tr → outcome (m tr).1 (m tr).2.

End Notebook.

(** The keyword arguments [fit] is to receive besides [dataframe] and
    [label]. *)
Definition fit_options : gmap string PyVal :=
  list_to_map
    [ ("time_budget", PyInt 180);
      ("metric", PyStr "mape");
      ("task", PyStr "forecast");
      ("log_file_name", PyStr "CO2_forecast.log");
      ("eval_method", PyStr "holdout");
      ("seed", PyInt 7654321);
      ("period", PyInt 12) ].

(** A [predict] call is handed [dates] and nothing else; other calls are
    not constrained. *)
Definition predict_gets {V Obj} (dates : list Z) (ev : @Event V Obj) : Prop :=
  match ev with
  | EvPredict _ X => X = dates
  | _ => True
  end.

(** What a [fit] call of the notebook looks like; other calls are not
    constrained. *)
Definition fit_as_configured {V Obj} (ev : @Event V Obj) : Prop :=
  match ev with
  | EvFit _ _ label kwargs => label = ("index", "co2") ∧ kwargs = fit_options
  | _ => True
  end.

(** ** Sample runs *)

Module Sample.
Import QArith_base.
#[local] Open Scope Z_scope.

(** Readings as rationals, with [sum / count] for the mean. *)
Definition Qmean (vs : list Q) : option Q :=
  Some (Qdiv (foldr Qplus (Qmake 0 1) vs)
          (inject_Z (Z.of_nat (length vs)))).

Definition reading (y m d : Z) (v : option Z)
  : Timestamp * option Q :=
  (mkTimestamp y m d, (λ n, inject_Z n) <$> v).

(** Two Saturdays of one month. *)
Definition one_month := [reading 1958 3 22 (Some 316); reading 1958 3 29 (Some 317)].

(** March to December 1958. *)
Definition ten_months := [reading 1958 3 29 (Some 316); reading 1958 12 27 (Some 315)].

(** March 1958 to April 1959. *)
Definition fourteen_months :=
  [reading 1958 3 29 (Some 316); reading 1959 4 25 (Some 318)].

(** A month without readings between two months with one. *)
Definition inner_gap := [reading 1958 3 29 (Some 316); reading 1958 5 3 (Some 317)].

(** The last month has a date but no reading. *)
Definition trailing_gap := [reading 2001 11 24 (Some 370); reading 2001 12 1 None].

(** Thirteen months whose held-out values end in [last_value]. *)
Definition thirteen_months (last_value : Z) :=
  [reading 1958 3 29 (Some 316); reading 1959 3 28 (Some last_value)].

(** Collaborators that answer every call, except that [fit] answers
    [fit_outcome]; objects are numbered. *)
Definition world (d : list (Timestamp * option Q)) (fit_outcome : string + unit)
  : @World Q string nat :=
  mkWorld (λ _, inr tt) (inr d) (inr 0%nat) (λ _ _ _ _, fit_outcome)
    (λ o _, inr (S o)) (λ _, inr tt) (λ _ _, inr 7%nat) (λ _ _, inr tt)
    (λ _, inr tt) (λ _ _, inr 8%nat) (λ _ _ _, inr 9%nat)
    (λ _ _, inr (10, 11, 12, [13; 14], 15)%nat) (λ h, inr (S h))
    (λ _, inr tt).

Definition python_error (e : PyErr) : string :=
  match e with
  | KeyError k => "KeyError: " +:+ k
  | TypeError m => "TypeError: " +:+ m
  end.
End Sample.

(** ** Further predicates on traces *)

Section TracePredicates.
Context {V Exn Obj : Type}.
Variable mean : list V → option V.
Variable w : @World V Exn Obj.

Definition is_fit (ev : @Event V Obj) : bool :=
  match ev with EvFit _ _ _ _ => true | _ => false end.

Definition is_predict (ev : @Event V Obj) : bool :=
  match ev with EvPredict _ _ => true | _ => false end.

(** [m] keeps a property of the trace. *)
Definition keeps (Q : list (@Event V Obj) → Prop) {A}
    (m : @M V Exn Obj A) : Prop :=
  ∀ tr, Q tr → Q (m tr).1.

(** [m] ends in an exception only when a call raised it. *)
Definition strict {A} (m : @M V Exn Obj A) : Prop :=
  ∀ tr, quiet w tr →
        match (m tr).2 with
        | inl e => unwound w (m tr).1 e
        | inr _ => quiet w (m tr).1
        end.

(** Every file that was opened has been closed since. *)
Definition balanced (tr : list (@Event V Obj)) : Prop :=
  ∀ (i : nat) file mode f,
    tr !! i = Some (EvOpen file mode) → open w file mode = inr f →
    ∃ j : nat, (i < j)%nat ∧ tr !! j = Some (EvClose f).

(** The only place of a [fit] call is the sixth call of the run and the
    only place of a [predict] call the twenty-second, and nothing else is
    called there. *)
Definition in_place (i : nat) (ev : @Event V Obj) : Prop :=
  (is_fit ev = true ↔ i = 5%nat) ∧ (is_predict ev = true ↔ i = 21%nat).

Definition placed (tr : list (@Event V Obj)) : Prop :=
  ∀ (i : nat) ev, tr !! i = Some ev → in_place i ev.

(** From a placed trace of [n] calls, [m] gives a placed trace, of [n']
    calls when it returns. *)
Definition paced (n n' : nat) {A} (m : @M V Exn Obj A) : Prop :=
  ∀ tr, placed tr → length tr = n →
        placed (m tr).1 ∧ ∀ a, (m tr).2 = inr a → length (m tr).1 = n'.

(** The log that is read is the one the settings name, up to the budget
    the settings give. *)
Definition log_as_configured (ev : @Event V Obj) : Prop :=
  match ev with
  | EvGetOutputFromLog name budget =>
      settings !! "log_file_name" = Some name
      ∧ settings !! "time_budget" = Some (PyInt budget)
  | _ => True
  end.

(** Where the arguments of [fit] and of the metric come from: the
    training table and the held-out values of the loaded series, and the
    answer of [predict] on its held-out dates. *)
Definition wired (ev : @Event V Obj) : Prop :=
  match ev with
  | EvFit _ df _ _ =>
      ∃ weekly, load_pandas w = inr weekly
                ∧ df = X_train (preprocess mean weekly)
  | EvLossScore metric y_pred y_true =>
      settings !! "metric" = Some (PyStr metric)
      ∧ ∃ weekly automl,
          load_pandas w = inr weekly
          ∧ y_true = y_test (preprocess mean weekly)
          ∧ predict w automl (X_test (preprocess mean weekly)) = inr y_pred
  | _ => True
  end.

End TracePredicates.

(** Collaborators as in [Sample.world], with a [print] that fails on the
    second configuration of the log. *)
Definition world_print_fails : @World QArith_base.Q string nat :=
  let w := Sample.world Sample.one_month (inr tt) in
  mkWorld (import_module w) (load_pandas w) (AutoML w) (fit w) (getattr w)
    (λ args, match args with
             | [VObj 14%nat] => inl "closed"
             | _ => inr tt
             end)
    (open w) (pickle_dump w) (close w) (predict w)
    (sklearn_metric_loss_score w) (get_output_from_log w) (one_minus w)
    (plt w).

(** October 2001 has a reading; the series goes on to December without
    another. *)
Definition two_trailing_gaps :=
  [Sample.reading 2001 10 27 (Some 370); Sample.reading 2001 12 1 None].

(** * Properties *)

(** ** Slicing *)

Lemma adjust_index_bounds n k : 0 ≤ n → 0 ≤ adjust_index n k ≤ n.
Proof. unfold adjust_index. case_decide; lia. Qed.

Lemma slice_to_from {A} k (l : list A) : slice_to k l ++ slice_from k l = l.
Proof. apply take_drop. Qed.

Lemma length_slice_to {A} k (l : list A) :
  length (slice_to k l) = Z.to_nat (adjust_index (Z.of_nat (length l)) k).
Proof.
  unfold slice_to. rewrite length_take_le; [done|].
  pose proof (adjust_index_bounds (Z.of_nat (length l)) k). lia.
Qed.

Lemma take_seqZ lo n (k : nat) :
  Z.of_nat k ≤ n → take k (seqZ lo n) = seqZ lo (Z.of_nat k).
Proof.
  intros Hk. replace n with (Z.of_nat k + (n - Z.of_nat k)) by lia.
  rewrite seqZ_app by lia. apply take_app_length'.
  rewrite length_seqZ. lia.
Qed.

Lemma drop_seqZ lo n (k : nat) :
  Z.of_nat k ≤ n → drop k (seqZ lo n) = seqZ (lo + Z.of_nat k) (n - Z.of_nat k).
Proof.
  intros Hk. replace n with (Z.of_nat k + (n - Z.of_nat k)) at 1 by lia.
  rewrite seqZ_app by lia. apply drop_app_length'.
  rewrite length_seqZ. lia.
Qed.

(** ** Preprocessing *)

Section PreprocessFacts.
Context {V : Type} (mean : list V → option V).
Implicit Types (s : list (Z * option V)) (data : list (Row V)).

Lemma bfill_labels s : (bfill s).*1 = s.*1.
Proof. induction s as [|[i x] r IH]; csimpl; [done|]. by f_equal. Qed.

(** Filling from the back-filled copy gives that copy. *)
Lemma fillna_bfill s : fillna s (bfill s) = bfill s.
Proof.
  unfold fillna. induction s as [|[i x] r IH]; simpl; [done|].
  rewrite IH. by destruct x.
Qed.

Lemma preprocess_bfill weekly :
  preprocess mean weekly = reset_index (bfill (resample_MS_mean mean weekly)).
Proof. unfold preprocess. by rewrite fillna_bfill. Qed.

Lemma reset_index_labels s : index <$> reset_index s = s.*1.
Proof.
  unfold reset_index. rewrite <- list_fmap_compose.
  by apply list_fmap_ext.
Qed.

(** The frame keeps the labels of the resampled series. *)
Lemma preprocess_index weekly :
  index <$> preprocess mean weekly = (resample_MS_mean mean weekly).*1.
Proof. by rewrite preprocess_bfill, reset_index_labels, bfill_labels. Qed.

(** The resampled index is a run of consecutive months. *)
Lemma resample_labels weekly :
  ∃ lo, (resample_MS_mean mean weekly).*1
        = seqZ lo (Z.of_nat (length (resample_MS_mean mean weekly))).
Proof.
  unfold resample_MS_mean.
  destruct (month_start ∘ fst <$> weekly) as [|m0 ms]; [by exists 0|].
  set (lo := foldr Z.min m0 ms). set (hi := foldr Z.max m0 ms).
  exists lo. rewrite length_fmap, length_seqZ, <- list_fmap_compose.
  assert (lo ≤ hi).
  { subst lo hi. clear. induction ms as [|m ms IH]; simpl; lia. }
  rewrite Z2Nat.id by lia.
  rewrite <- (list_fmap_id (seqZ lo (hi - lo + 1))) at 2.
  by apply list_fmap_ext.
Qed.

Lemma preprocess_months weekly :
  ∃ lo, index <$> preprocess mean weekly
        = seqZ lo (num_samples (preprocess mean weekly)).
Proof.
  destruct (resample_labels weekly) as [lo Hlo]. exists lo.
  rewrite preprocess_index, Hlo. unfold num_samples. f_equal. f_equal.
  by rewrite <- (length_fmap index (preprocess mean weekly)),
    preprocess_index, length_fmap.
Qed.

(** ** The splitter *)

Lemma cut_le data : (cut data ≤ length data)%nat.
Proof.
  unfold cut, num_samples.
  pose proof (adjust_index_bounds (Z.of_nat (length data)) (split_idx data)).
  lia.
Qed.

Lemma cut_long data :
  time_horizon ≤ num_samples data → cut data = (length data - 12)%nat.
Proof.
  unfold cut, split_idx, num_samples, time_horizon, adjust_index.
  intros. case_decide; lia.
Qed.

Lemma cut_short data :
  num_samples data < time_horizon →
  cut data = (2 * length data - 12)%nat.
Proof.
  unfold cut, split_idx, num_samples, time_horizon, adjust_index.
  intros. case_decide; lia.
Qed.

Lemma X_train_take data : X_train data = take (cut data) data.
Proof. done. Qed.

Lemma X_test_drop data : X_test data = index <$> drop (cut data) data.
Proof. done. Qed.

Lemma y_test_drop data : y_test data = co2 <$> drop (cut data) data.
Proof. done. Qed.

Lemma test_rows_drop data : test_rows data = drop (cut data) data.
Proof.
  unfold test_rows. rewrite X_test_drop, y_test_drop.
  induction (drop (cut data) data) as [|[i x] l IH]; csimpl; [done|].
  by f_equal.
Qed.

Lemma split_partition data : X_train data ++ test_rows data = data.
Proof. rewrite test_rows_drop, X_train_take. apply take_drop. Qed.

Lemma length_X_train data : length (X_train data) = cut data.
Proof. rewrite X_train_take. apply length_take_le, cut_le. Qed.

Lemma length_X_test data :
  length (X_test data) = (length data - cut data)%nat.
Proof. by rewrite X_test_drop, length_fmap, length_drop. Qed.

Lemma length_y_test data : length (y_test data) = length (X_test data).
Proof. by rewrite X_test_drop, y_test_drop, !length_fmap. Qed.

End PreprocessFacts.

(** ** The claims on the data loader and the splitter *)

Section DataClaims.
Context {V : Type} (mean : list V → option V).
Implicit Types (s : list (Z * option V)) (data : list (Row V)).
Implicit Types weekly : list (Timestamp * option V).

Lemma bfill_lookup s (i : nat) :
  bfill s !! i
  = (λ a, (a.1, match a.2 with
                | Some v => Some v
                | None => first_valid (drop (S i) s)
                end)) <$> s !! i.
Proof.
  revert i. induction s as [|[m x] r IH]; intros [|i]; simpl; auto.
Qed.

Lemma preprocess_lookup weekly (i : nat) :
  preprocess mean weekly !! i
  = (λ a, mkRow a.1 (match a.2 with
                     | Some v => Some v
                     | None =>
                         first_valid
                           (drop (S i) (resample_MS_mean mean weekly))
                     end)) <$> resample_MS_mean mean weekly !! i.
Proof.
  rewrite preprocess_bfill. unfold reset_index.
  rewrite list_lookup_fmap, bfill_lookup.
  by destruct (resample_MS_mean mean weekly !! i).
Qed.

(** Once the series ends in an observation, back-filling leaves no gap. *)
Lemma bfill_complete s m v :
  last s = Some (m, Some v) → Forall (λ a, is_Some a.2) (bfill s).
Proof.
  induction s as [|[i x] r IH]; simpl; [done|]. intros Hlast.
  destruct r as [|[j y] r'].
  - simplify_eq/=. by repeat constructor.
  - rewrite last_cons_cons in Hlast. specialize (IH Hlast).
    constructor; [|done]. destruct x as [x|]; simpl; [done|].
    apply Forall_cons_1 in IH as [Ha _]. by destruct y.
Qed.

(** C1 (amended): whenever the resampled series has at least
    [time_horizon] = 12 rows, [X_test] and [y_test] have exactly 12 rows
    each, and they are the last 12 rows of the frame: the dates are the
    last 12 labels of the resampled series. *)
Theorem test_table_rows_equal_horizon weekly :
  time_horizon ≤ num_samples (preprocess mean weekly) →
  Z.of_nat (length (X_test (preprocess mean weekly))) = time_horizon
  ∧ Z.of_nat (length (y_test (preprocess mean weekly))) = time_horizon
  ∧ test_rows (preprocess mean weekly)
    = drop (length (preprocess mean weekly) - 12) (preprocess mean weekly)
  ∧ X_test (preprocess mean weekly)
    = drop (length (preprocess mean weekly) - 12)
        (resample_MS_mean mean weekly).*1.
Proof.
  intros Hlong. pose proof (cut_long _ Hlong) as Hcut.
  rewrite length_y_test, length_X_test, test_rows_drop, X_test_drop, Hcut.
  rewrite fmap_drop, preprocess_index.
  unfold num_samples, time_horizon in *. repeat split; lia.
Qed.

(** C2: the training table followed by the test table (each date of
    [X_test] with its [y_test] value) is the frame itself, row for row
    and in order; its dates are the labels of the resampled series,
    consecutive months without a repetition. *)
Theorem train_test_concat_is_series weekly :
  X_train (preprocess mean weekly) ++ test_rows (preprocess mean weekly)
  = preprocess mean weekly
  ∧ index <$> (X_train (preprocess mean weekly)
               ++ test_rows (preprocess mean weekly))
    = (resample_MS_mean mean weekly).*1
  ∧ (∃ lo, index <$> (X_train (preprocess mean weekly)
                      ++ test_rows (preprocess mean weekly))
           = seqZ lo (num_samples (preprocess mean weekly)))
  ∧ NoDup (index <$> (X_train (preprocess mean weekly)
                      ++ test_rows (preprocess mean weekly))).
Proof.
  rewrite split_partition. split; [done|].
  split; [apply preprocess_index|].
  destruct (preprocess_months mean weekly) as [lo Hlo].
  split; [by exists lo|]. rewrite Hlo. apply NoDup_seqZ.
Qed.

(** C5: every test date is strictly later than every training date, the
    test dates are the consecutive months that start right after the
    last training month, the dates of the frame are the training dates
    followed by the test dates, and no date is in both tables. *)
Theorem train_test_ordered_disjoint weekly :
  (∀ a b, a ∈ index <$> X_train (preprocess mean weekly) →
          b ∈ X_test (preprocess mean weekly) → a < b)
  ∧ (∃ lo,
       index <$> X_train (preprocess mean weekly)
       = seqZ lo (Z.of_nat (length (X_train (preprocess mean weekly))))
       ∧ X_test (preprocess mean weekly)
         = seqZ (lo + Z.of_nat (length (X_train (preprocess mean weekly))))
             (Z.of_nat (length (X_test (preprocess mean weekly)))))
  ∧ index <$> preprocess mean weekly
    = (index <$> X_train (preprocess mean weekly))
        ++ X_test (preprocess mean weekly)
  ∧ (∀ a, a ∈ index <$> X_train (preprocess mean weekly) →
          a ∉ X_test (preprocess mean weekly)).
Proof.
  destruct (preprocess_months mean weekly) as [lo Hlo].
  set (d := preprocess mean weekly) in *.
  pose proof (cut_le d) as Hle.
  assert (Htr : index <$> X_train d = seqZ lo (Z.of_nat (cut d))).
  { rewrite X_train_take, fmap_take, Hlo. apply take_seqZ.
    unfold num_samples. lia. }
  assert (Hte : X_test d
                = seqZ (lo + Z.of_nat (cut d))
                    (num_samples d - Z.of_nat (cut d))).
  { rewrite X_test_drop, fmap_drop, Hlo. apply drop_seqZ.
    unfold num_samples. lia. }
  assert (Hord : ∀ a b, a ∈ index <$> X_train d → b ∈ X_test d → a < b).
  { intros a b. rewrite Htr, Hte, !elem_of_seqZ. lia. }
  split; [exact Hord|]. split; [|split].
  - exists lo. rewrite length_X_train, length_X_test. split; [done|].
    rewrite Hte. f_equal. unfold num_samples. lia.
  - rewrite X_test_drop, X_train_take, <- fmap_app. by rewrite take_drop.
  - intros a Ha Hb. specialize (Hord a a Ha Hb). lia.
Qed.

(** C9 (amended): with fewer rows than the horizon, [split_idx] is
    negative and the test table has strictly fewer than 12 rows; with
    at most 6 rows the training table is empty and the test table is
    the whole series. *)
Theorem short_series_split data :
  num_samples data < time_horizon →
  split_idx data < 0
  ∧ Z.of_nat (length (X_test data)) < time_horizon
  ∧ length (y_test data) = length (X_test data)
  ∧ (num_samples data ≤ 6 → X_train data = [] ∧ test_rows data = data).
Proof.
  intros Hshort. pose proof (cut_short _ Hshort) as Hcut.
  rewrite length_y_test, length_X_test, test_rows_drop, X_train_take, Hcut.
  unfold split_idx, num_samples, time_horizon in *.
  repeat split; try lia.
  - replace (2 * length data - 12)%nat with 0%nat by lia. done.
  - replace (2 * length data - 12)%nat with 0%nat by lia. done.
Qed.

(** With 7 to 11 rows the negative [split_idx] counts from the end: the
    first [2 n - 12] rows train and the last [12 - n] are held out. *)
Lemma short_series_wraps data :
  6 < num_samples data < time_horizon →
  length (X_train data) = (2 * length data - 12)%nat
  ∧ length (X_test data) = (12 - length data)%nat.
Proof.
  intros [? Hshort]. pose proof (cut_short _ Hshort) as Hcut.
  rewrite length_X_train, length_X_test, Hcut.
  unfold num_samples, time_horizon in *. lia.
Qed.

(** C4 (amended): the loader back-fills the gaps of the resampled
    series: an observed entry is kept, and a missing entry that has an
    observation after it takes the nearest such observation. *)
Theorem loader_back_fills weekly (i : nat) m x v :
  resample_MS_mean mean weekly !! i = Some (m, x) →
  x = Some v
  ∨ (x = None
     ∧ first_valid (drop (S i) (resample_MS_mean mean weekly)) = Some v) →
  preprocess mean weekly !! i = Some (mkRow m (Some v)).
Proof.
  intros Hi Hx. rewrite preprocess_lookup, Hi. simpl.
  destruct Hx as [->|[-> ->]]; done.
Qed.

(** When the last month of the resampled series has a reading, no value
    of the frame is missing. *)
Lemma preprocess_complete weekly m v :
  last (resample_MS_mean mean weekly) = Some (m, Some v) →
  Forall (λ r, is_Some (co2 r)) (preprocess mean weekly).
Proof.
  intros Hlast. rewrite preprocess_bfill. unfold reset_index.
  apply Forall_fmap. eapply Forall_impl; [by eapply bfill_complete|].
  by intros [??].
Qed.

End DataClaims.

(** ** The notebook's calls *)

Section NotebookFacts.
Context {V Exn Obj : Type}.
Variable mean : list V → option V.
Variable python_error : PyErr → Exn.
#[local] Existing Instances M_ret M_bind.

#[local] Abbreviation M := (@M V Exn Obj).
#[local] Abbreviation World := (@World V Exn Obj).
#[local] Abbreviation Event := (@Event V Obj).

Lemma keywords_period :
  keywords settings "period" (PyInt time_horizon) = inr fit_options.
Proof. vm_compute. reflexivity. Qed.

Lemma settings_log_file_name :
  settings !! "log_file_name" = Some (PyStr "CO2_forecast.log").
Proof. vm_compute. reflexivity. Qed.

Lemma cell_fit_call (w : World) automl train :
  cell_fit python_error w automl train
  = call (EvFit automl train ("index", "co2") fit_options)
      (fit w automl train ("index", "co2") fit_options).
Proof. unfold cell_fit. by rewrite keywords_period. Qed.

Lemma cell_log_call (w : World) :
  cell_log python_error w
  = (do_import w "flaml.data" ;;
     h ← call (EvGetOutputFromLog (PyStr "CO2_forecast.log") 180)
           (get_output_from_log w (PyStr "CO2_forecast.log") 180);
     for_each h.1.2 (λ config, do_print w [VObj config]) ;;
     mret h).
Proof. unfold cell_log, subscript. by rewrite settings_log_file_name. Qed.

(** *** What is emitted *)

Section Emits.
Variable P : Event → Prop.

Lemma emits_ret {A} (a : A) : emits P (mret a : M A).
Proof. by intros tr Htr. Qed.

Lemma emits_raise {A} e : emits P (raise e : M A).
Proof. by intros tr Htr. Qed.

Lemma emits_call {A} ev (r : Exn + A) : P ev → emits P (call ev r).
Proof.
  intros Hev tr Htr. simpl. apply Forall_app. split; [done|].
  by constructor.
Qed.

Lemma emits_bind {A B} (m : M A) (k : A → M B) :
  emits P m → (∀ a, emits P (k a)) → emits P (m ≫= k).
Proof.
  intros Hm Hk tr Htr. specialize (Hm tr Htr).
  unfold mbind, M_bind. destruct (m tr) as [tr' [e|a]]; simpl in *.
  - done.
  - by apply Hk.
Qed.

Lemma emits_for_each {A} (xs : list A) (body : A → M unit) :
  (∀ x, emits P (body x)) → emits P (for_each xs body).
Proof.
  intros Hbody. induction xs as [|x xs IH]; simpl.
  - apply emits_ret.
  - apply emits_bind; [apply Hbody | by intros _].
Qed.

Lemma emits_with_open {A} (w : World) file mode (body : Obj → M A) :
  P (EvOpen file mode) → (∀ f, P (EvClose f)) →
  (∀ f, emits P (body f)) → emits P (with_open w file mode body).
Proof.
  intros Hopen Hclose Hbody. unfold with_open.
  apply emits_bind; [by apply emits_call|]. intros f tr Htr.
  specialize (Hbody f tr Htr). destruct (body f tr) as [tr1 r1].
  simpl in *. destruct (close w f); simpl;
    (apply Forall_app; split; [done|by constructor]).
Qed.
End Emits.

Ltac emits_step :=
  first
    [ apply emits_ret
    | apply emits_raise
    | apply emits_for_each; intros ?
    | apply emits_with_open; [| intros ? | intros ?]
    | apply emits_bind; [| intros ?]
    | apply emits_call ].

(** Every [fit] call of a run carries the label pair and the options of
    the notebook. *)
Lemma notebook_fit_as_configured (w : World) :
  emits fit_as_configured (notebook mean python_error w).
Proof.
  unfold notebook, forecast, cell_install, cell_load, cell_automl,
    cell_best, cell_estimator, cell_pickle, cell_predict, cell_labels,
    cell_metric, cell_forecast_plot, do_import, do_getattr, do_print,
    do_plt.
  repeat first
    [ rewrite cell_fit_call | rewrite cell_log_call
    | match goal with
      | |- emits _ (cell_learning_curve _ ?h) =>
          destruct h as [[[[? ?] ?] ?] ?]; unfold cell_learning_curve,
            do_import, do_plt
      end
    | emits_step ];
    done.
Qed.

Lemma fit_event_configured (w : World) (i : nat) automl df label kwargs :
  (run (notebook mean python_error w)).1 !! i
  = Some (EvFit automl df label kwargs) →
  label = ("index", "co2") ∧ kwargs = fit_options.
Proof.
  intros Hi.
  pose proof (notebook_fit_as_configured w [] (Forall_nil_2 _)) as Hall.
  rewrite Forall_lookup in Hall. exact (Hall _ _ Hi).
Qed.

(** *** Exceptions *)

Section Propagation.
Variable w : World.
#[local] Arguments raises : simpl never.

Lemma quiet_snoc tr ev :
  quiet w tr → raises w ev = None → quiet w (tr ++ [ev]).
Proof.
  intros Htr Hev. apply Forall_app. split; [done|]. by constructor.
Qed.

Lemma omap_raises_quiet l : quiet w l → omap (raises w) l = [].
Proof.
  induction 1 as [|ev l Hev _ IH]; simpl; [done|]. by rewrite Hev.
Qed.

Lemma last_raised_snoc l ev :
  last_raised w (l ++ [ev])
  = match raises w ev with
    | Some e => Some e
    | None => last_raised w l
    end.
Proof.
  unfold last_raised. rewrite omap_app. simpl.
  destruct (raises w ev) as [e|]; simpl.
  - apply last_snoc.
  - by rewrite app_nil_r.
Qed.

Lemma last_raised_singleton ev e :
  raises w ev = Some e → last_raised w [ev] = Some e.
Proof. intros Hev. unfold last_raised. simpl. by rewrite Hev. Qed.

(** The exception of a raising call after which nothing raised. *)
Lemma last_raised_lookup l (k : nat) ev e :
  l !! k = Some ev → raises w ev = Some e →
  (∀ (k' : nat) ev', (k < k')%nat → l !! k' = Some ev' →
                     raises w ev' = None) →
  last_raised w l = Some e.
Proof.
  intros Hk Hev Hafter. rewrite <- (take_drop_middle l k ev Hk).
  unfold last_raised. rewrite omap_app.
  replace (omap (raises w) (ev :: drop (S k) l))
    with (e :: omap (raises w) (drop (S k) l))
    by (simpl; by rewrite Hev).
  rewrite (omap_raises_quiet (drop (S k) l)).
  - apply last_snoc.
  - apply Forall_lookup. intros j ev' Hj. rewrite lookup_drop in Hj.
    apply (Hafter (S k + j)%nat ev'); [lia | done].
Qed.

Lemma propagating_ret {A} (a : A) : propagating w (mret a : M A).
Proof. by intros tr Htr. Qed.

Lemma propagating_raise {A} e : propagating w (raise e : M A).
Proof. intros tr Htr. by left. Qed.

Lemma propagating_call {A} ev (r : Exn + A) :
  raises w ev = error_of r → propagating w (call ev r).
Proof.
  intros Hev tr Htr. destruct r as [e|a]; simpl in *.
  - right. exists tr, ev, [].
    repeat split; [done | by eexists | constructor |].
    by apply last_raised_singleton.
  - by apply quiet_snoc.
Qed.

Lemma propagating_bind {A B} (m : M A) (k : A → M B) :
  propagating w m → (∀ a, propagating w (k a)) →
  propagating w (m ≫= k).
Proof.
  intros Hm Hk tr Htr. specialize (Hm tr Htr).
  unfold mbind, M_bind. destruct (m tr) as [tr' [e|a]]; simpl in *.
  - done.
  - by apply Hk.
Qed.

Lemma propagating_for_each {A} (xs : list A) (body : A → M unit) :
  (∀ x, propagating w (body x)) → propagating w (for_each xs body).
Proof.
  intros Hbody. induction xs as [|x xs IH]; simpl.
  - apply propagating_ret.
  - apply propagating_bind; [apply Hbody | by intros _].
Qed.

(** A [with] block around one call: the exit handler runs, and the
    exception still leaves the block. *)
Lemma propagating_with_open {A} file mode (ev : Obj → Event)
    (r : Obj → Exn + A) :
  (∀ f, raises w (ev f) = error_of (r f)) →
  (∀ f, in_with_block (ev f) = true) →
  propagating w (with_open w file mode (λ f, call (ev f) (r f))).
Proof.
  intros Hev Hin. unfold with_open.
  apply propagating_bind; [by apply propagating_call|]. intros f tr Htr.
  specialize (Hev f). simpl.
  destruct (close w f) as [e'|[]] eqn:Hclose; simpl.
  - assert (Hc : raises w (EvClose f) = Some e')
      by (unfold raises; by rewrite Hclose).
    right. destruct (r f) as [e|a]; simpl in Hev.
    + exists tr, (ev f), [EvClose f]. rewrite <- app_assoc.
      repeat split; [done | by eexists | by repeat constructor | |].
      * intros Hout. by rewrite Hin in Hout.
      * change [ev f; EvClose f] with ([ev f] ++ [EvClose f]).
        by rewrite last_raised_snoc, Hc.
    + exists (tr ++ [ev f]), (EvClose f), [].
      repeat split; [by apply quiet_snoc | by eexists | constructor |].
      by apply last_raised_singleton.
  - assert (Hc : raises w (EvClose f) = None)
      by (unfold raises; by rewrite Hclose).
    destruct (r f) as [e|a]; simpl in Hev |- *.
    + right. exists tr, (ev f), [EvClose f]. rewrite <- app_assoc.
      repeat split; [done | by eexists | by repeat constructor | |].
      * intros Hout. by rewrite Hin in Hout.
      * change [ev f; EvClose f] with ([ev f] ++ [EvClose f]).
        rewrite last_raised_snoc, Hc. by apply last_raised_singleton.
    + by repeat apply quiet_snoc.
Qed.

(** What an outcome says about a call that raised. *)
Lemma outcome_raised {A} tr (r : Exn + A) (i : nat) ev e :
  outcome w tr r → tr !! i = Some ev → raises w ev = Some e →
  (∃ e', r = inl e')
  ∧ (∀ (j : nat) ev', (i < j)%nat → tr !! j = Some ev' →
                      is_cleanup ev' = true)
  ∧ ((∀ (j : nat) ev', (i < j)%nat → tr !! j = Some ev' →
                       raises w ev' = None) → r = inl e)
  ∧ (in_with_block ev = false → length tr = S i ∧ r = inl e).
Proof.
  intros Hout Hi Hev.
  assert (Hnq : ¬ quiet w tr).
  { intros Hq. rewrite (proj1 (Forall_lookup _ _) Hq _ _ Hi) in Hev.
    done. }
  destruct r as [e0|a]; simpl in Hout; [|done].
  destruct Hout
    as [Hq|(pre & ev0 & post & -> & Hpre & Hev0 & Hpost & Hout & Hl)];
    [done|].
  apply lookup_app_Some in Hi as [Hi|[Hlen Hi]].
  { rewrite (proj1 (Forall_lookup _ _) Hpre _ _ Hi) in Hev. done. }
  split; [by eexists|]. split; [|split].
  - intros j ev' Hj Hlook.
    rewrite lookup_app_r in Hlook by lia.
    destruct (j - length pre)%nat as [|k] eqn:Hk; [lia|]. simpl in Hlook.
    exact (proj1 (Forall_lookup _ _) Hpost _ _ Hlook).
  - intros Hafter. f_equal.
    assert (last_raised w (ev0 :: post) = Some e) as Hl'.
    { apply (last_raised_lookup _ _ _ _ Hi Hev). intros k' ev' Hk' Hlook.
      apply (Hafter (length pre + k')%nat ev'); [lia|].
      rewrite lookup_app_r by lia.
      by replace (length pre + k' - length pre)%nat with k' by lia. }
    congruence.
  - intros Hnot. destruct (i - length pre)%nat as [|k] eqn:Hk; simpl in Hi.
    + simplify_eq. rewrite (Hout Hnot) in *.
      rewrite (last_raised_singleton _ _ Hev) in Hl. simplify_eq.
      rewrite length_app. simpl. split; [lia | done].
    + pose proof (proj1 (Forall_lookup _ _) Hpost _ _ Hi) as Hclean.
      destruct ev; done.
Qed.
End Propagation.

(** In a world that serves [weekly], what follows the load cell runs on
    the preprocessed frame. *)
Lemma emits_load_bind (P : Event → Prop) {B} (w : World) weekly
    (k : list (Row V) → M B) :
  P (EvImport "statsmodels.api") → P EvLoadPandas →
  emits P (k (preprocess mean weekly)) →
  emits P (cell_load mean (with_data w weekly) ≫= k).
Proof.
  intros Himport Hload Hk tr Htr.
  unfold cell_load, do_import, call, mbind, M_bind, mret, M_ret. simpl.
  assert (Forall P (tr ++ [EvImport "statsmodels.api"])) as Htr'.
  { apply Forall_app. split; [done|]. by constructor. }
  destruct (import_module w "statsmodels.api") as [e|[]]; simpl; [done|].
  apply Hk, Forall_app. split; [done|]. by constructor.
Qed.

Ltac propagating_step :=
  first
    [ apply propagating_ret
    | apply propagating_raise
    | apply propagating_for_each; intros ?
    | apply propagating_with_open; [intros ?; reflexivity | done]
    | apply propagating_bind; [| intros ?]
    | apply propagating_call; reflexivity ].

Lemma notebook_propagating (w : World) :
  propagating w (notebook mean python_error w).
Proof.
  unfold notebook, forecast, cell_install, cell_load, cell_automl,
    cell_best, cell_estimator, cell_pickle, cell_predict, cell_labels,
    cell_metric, cell_forecast_plot, do_import, do_getattr, do_print,
    do_plt.
  repeat first
    [ rewrite cell_fit_call | rewrite cell_log_call
    | match goal with
      | |- propagating _ (cell_learning_curve _ ?h) =>
          destruct h as [[[[? ?] ?] ?] ?]; unfold cell_learning_curve,
            do_import, do_plt
      end
    | propagating_step ].
Qed.

(** ** The claims on the forecast driver *)

(** C6: a [fit] call of a run carries the label pair ('index', 'co2')
    and, as further keywords, exactly the seven options time_budget =
    180, metric = 'mape', task = 'forecast', log_file_name =
    'CO2_forecast.log', eval_method = 'holdout', seed = 7654321 and
    period = time_horizon = 12: the settings with the period added. *)
Theorem fit_receives_configured_options (w : World) (i : nat)
    automl df label kwargs :
  (run (notebook mean python_error w)).1 !! i
  = Some (EvFit automl df label kwargs) →
  label = ("index", "co2")
  ∧ dom kwargs
    = {[ "time_budget"; "metric"; "task"; "log_file_name"; "eval_method";
         "seed"; "period" ]}
  ∧ kwargs !! "time_budget" = Some (PyInt 180)
  ∧ kwargs !! "metric" = Some (PyStr "mape")
  ∧ kwargs !! "task" = Some (PyStr "forecast")
  ∧ kwargs !! "log_file_name" = Some (PyStr "CO2_forecast.log")
  ∧ kwargs !! "eval_method" = Some (PyStr "holdout")
  ∧ kwargs !! "seed" = Some (PyInt 7654321)
  ∧ kwargs !! "period" = Some (PyInt time_horizon)
  ∧ kwargs = <["period" := PyInt time_horizon]> settings.
Proof.
  intros Hi. apply fit_event_configured in Hi as [-> ->].
  split; [done|]. repeat split; by vm_compute.
Qed.

(** C7: whatever the collaborators answer in two runs, the [fit] calls
    of both carry the same label pair and the same options: budget,
    metric, task, log file name, validation method, seed and period. *)
Theorem two_runs_request_same_settings (w1 w2 : World) (i1 i2 : nat)
    automl1 df1 label1 kwargs1 automl2 df2 label2 kwargs2 :
  (run (notebook mean python_error w1)).1 !! i1
  = Some (EvFit automl1 df1 label1 kwargs1) →
  (run (notebook mean python_error w2)).1 !! i2
  = Some (EvFit automl2 df2 label2 kwargs2) →
  label1 = label2 ∧ kwargs1 = kwargs2.
Proof.
  intros [-> ->]%fit_event_configured [-> ->]%fit_event_configured. done.
Qed.

(** C8: if a call of a run raises, the run ends with an exception and no
    value; no call follows it but the exit handler of an open [with]
    block, so nothing is retried and no later cell runs; the run ends
    with the exception of that very call unless the exit handler raises
    one of its own; and a call outside the [with] block that raises
    (the data fetch, [fit], [predict], the log parsing among them) is
    the last call of the run, which ends with its exception. *)
Theorem failures_propagate_uncaught (w : World) (i : nat) ev e :
  (run (notebook mean python_error w)).1 !! i = Some ev →
  raises w ev = Some e →
  (∃ e', (run (notebook mean python_error w)).2 = inl e')
  ∧ (∀ (j : nat) ev', (i < j)%nat →
       (run (notebook mean python_error w)).1 !! j = Some ev' →
       is_cleanup ev' = true)
  ∧ ((∀ (j : nat) ev', (i < j)%nat →
        (run (notebook mean python_error w)).1 !! j = Some ev' →
        raises w ev' = None) →
     (run (notebook mean python_error w)).2 = inl e)
  ∧ (in_with_block ev = false →
     length (run (notebook mean python_error w)).1 = S i
     ∧ (run (notebook mean python_error w)).2 = inl e).
Proof.
  apply outcome_raised, notebook_propagating. constructor.
Qed.

Lemma forecast_with_data (w : World) d train dates :
  forecast python_error (with_data w d) train dates
  = forecast python_error w train dates.
Proof. reflexivity. Qed.

(** The test dates are a function of the date column alone. *)
Lemma X_test_dates_only (d1 d2 : list (Row V)) :
  index <$> d1 = index <$> d2 → X_test d1 = X_test d2.
Proof.
  intros Hdates. rewrite !X_test_drop, !fmap_drop, Hdates.
  assert (length d1 = length d2) as Hlen
    by (by rewrite <- (length_fmap index d1), Hdates, length_fmap).
  unfold cut, split_idx, num_samples. by rewrite Hlen.
Qed.

Lemma notebook_predict_gets (w : World) weekly :
  emits (predict_gets (X_test (preprocess mean weekly)))
    (notebook mean python_error (with_data w weekly)).
Proof.
  unfold notebook. apply emits_bind; [by apply emits_call|]. intros _.
  apply emits_load_bind; [done..|].
  generalize (with_data w weekly). intros w'.
  unfold forecast, cell_automl, cell_best, cell_estimator, cell_pickle,
    cell_predict, cell_labels, cell_metric, cell_forecast_plot, do_import,
    do_getattr, do_print, do_plt.
  repeat first
    [ rewrite cell_fit_call | rewrite cell_log_call
    | match goal with
      | |- emits _ (cell_learning_curve _ ?h) =>
          destruct h as [[[[? ?] ?] ?] ?]; unfold cell_learning_curve,
            do_import, do_plt
      end
    | emits_step ];
    done.
Qed.

(** C10: [predict] is handed the dates of [X_test] and nothing else;
    two runs with the same collaborators whose frames have the same
    training table and the same dates, whatever the held-out values,
    make the same calls up to and including [predict] and get the same
    [flaml_y_pred]. *)
Theorem predictions_ignore_held_out_values (w : World) weekly1 weekly2 :
  X_train (preprocess mean weekly1) = X_train (preprocess mean weekly2) →
  index <$> preprocess mean weekly1 = index <$> preprocess mean weekly2 →
  (∀ (i : nat) automl X,
     (run (notebook mean python_error (with_data w weekly1))).1 !! i
     = Some (EvPredict automl X) →
     X = X_test (preprocess mean weekly1))
  ∧ X_test (preprocess mean weekly1) = X_test (preprocess mean weekly2)
  ∧ run (predictions mean python_error (with_data w weekly1))
    = run (predictions mean python_error (with_data w weekly2)).
Proof.
  intros Htrain Hdates. apply X_test_dates_only in Hdates as Htest.
  split; [|split; [done|]].
  - intros i automl X Hi.
    pose proof (notebook_predict_gets w weekly1 [] (Forall_nil_2 _)) as Hall.
    rewrite Forall_lookup in Hall. exact (Hall _ _ Hi).
  - unfold run, predictions, cell_install, cell_load, do_import, call,
      mbind, M_bind, mret, M_ret. simpl.
    destruct (import_module w "statsmodels.api") as [e|[]]; simpl; [done|].
    by rewrite !forecast_with_data, Htrain, Htest.
Qed.

End NotebookFacts.

(** ** The claims on sample runs *)

(** Fourteen months: the last twelve are held out. *)
Lemma test_table_rows_equal_horizon_witness :
  time_horizon ≤ num_samples (preprocess Sample.Qmean Sample.fourteen_months)
  ∧ Z.of_nat (length (X_test (preprocess Sample.Qmean Sample.fourteen_months)))
    = time_horizon.
Proof.
  split; [by vm_compute|].
  refine (proj1 (test_table_rows_equal_horizon
                   Sample.Qmean Sample.fourteen_months _)).
  by vm_compute.
Defined.

(** C1 as stated fails on a series of a single month: the test table has
    one row, not twelve. *)
Lemma one_month_test_table_is_short :
  Z.of_nat (length (X_test (preprocess Sample.Qmean Sample.one_month)))
  ≠ time_horizon
  ∧ Z.of_nat (length (y_test (preprocess Sample.Qmean Sample.one_month)))
    ≠ time_horizon.
Proof. split; by vm_compute. Qed.

(** C3: the last month of this series has a date and no reading, and its
    value is still missing after the fill. *)
Lemma trailing_gap_stays_missing :
  co2 <$> preprocess Sample.Qmean Sample.trailing_gap
  = [Some (QArith_base.Qmake 370 1); None].
Proof. by vm_compute. Qed.

Lemma loader_back_fills_witness :
  resample_MS_mean Sample.Qmean Sample.inner_gap !! 1%nat = Some (23499, None)
  ∧ preprocess Sample.Qmean Sample.inner_gap !! 1%nat
    = Some (mkRow 23499 (Some (QArith_base.Qmake 317 1))).
Proof.
  split; [by vm_compute|].
  apply (loader_back_fills Sample.Qmean Sample.inner_gap 1 23499 None).
  - by vm_compute.
  - right. split; [done | by vm_compute].
Defined.

(** C4 as stated fails where a gap lies between two readings: the loader
    fills April 1958 with the reading of May, the fill of the claim with
    that of March. *)
Lemma inner_gap_is_not_forward_filled :
  preprocess Sample.Qmean Sample.inner_gap
  ≠ reset_index
      (spec_forward_back_fill
         (resample_MS_mean Sample.Qmean Sample.inner_gap)).
Proof. by vm_compute. Qed.

Lemma short_series_split_witness :
  num_samples (preprocess Sample.Qmean Sample.one_month) < time_horizon
  ∧ num_samples (preprocess Sample.Qmean Sample.one_month) ≤ 6
  ∧ X_train (preprocess Sample.Qmean Sample.one_month) = []
  ∧ test_rows (preprocess Sample.Qmean Sample.one_month)
    = preprocess Sample.Qmean Sample.one_month.
Proof.
  split; [by vm_compute|]. split; [by vm_compute|].
  refine (proj2 (proj2 (proj2 (short_series_split
                                 (preprocess Sample.Qmean Sample.one_month)
                                 _))) _);
    by vm_compute.
Defined.

(** C9 as stated fails on a series of ten months: [split_idx] is -2, the
    training table keeps the first eight rows and the test table has the
    last two, not the whole series. *)
Lemma ten_months_train_is_not_empty :
  num_samples (preprocess Sample.Qmean Sample.ten_months) < time_horizon
  ∧ ¬ (X_train (preprocess Sample.Qmean Sample.ten_months) = []
       ∧ test_rows (preprocess Sample.Qmean Sample.ten_months)
         = preprocess Sample.Qmean Sample.ten_months)
  ∧ length (X_train (preprocess Sample.Qmean Sample.ten_months)) = 8%nat
  ∧ length (X_test (preprocess Sample.Qmean Sample.ten_months)) = 2%nat.
Proof.
  split; [by vm_compute|]. split; [|by vm_compute].
  intros [Hempty _]. vm_compute in Hempty. done.
Qed.

Lemma fit_receives_configured_options_witness :
  (run (notebook Sample.Qmean Sample.python_error
          (Sample.world Sample.one_month (inr tt)))).1 !! 5%nat
  = Some (EvFit 0%nat [] ("index", "co2") fit_options)
  ∧ fit_options !! "seed" = Some (PyInt 7654321).
Proof.
  split; [by vm_compute|].
  refine (proj1 (proj2 (proj2 (proj2 (proj2 (proj2 (proj2 (proj2
    (fit_receives_configured_options Sample.Qmean Sample.python_error
       (Sample.world Sample.one_month (inr tt)) 5 0%nat []
       ("index", "co2") fit_options _)))))))));
    by vm_compute.
Defined.

Lemma two_runs_request_same_settings_witness :
  ∃ df1 df2 kwargs1 kwargs2,
    (run (notebook Sample.Qmean Sample.python_error
            (Sample.world Sample.one_month (inr tt)))).1 !! 5%nat
    = Some (EvFit 0%nat df1 ("index", "co2") kwargs1)
    ∧ (run (notebook Sample.Qmean Sample.python_error
              (Sample.world Sample.fourteen_months (inl "stopped")))).1
      !! 5%nat
      = Some (EvFit 0%nat df2 ("index", "co2") kwargs2)
    ∧ df1 ≠ df2 ∧ kwargs1 = kwargs2.
Proof.
  exists [], (X_train (preprocess Sample.Qmean Sample.fourteen_months)),
    fit_options, fit_options.
  split; [by vm_compute|]. split; [by vm_compute|]. split; [by vm_compute|].
  refine (proj2 (two_runs_request_same_settings
                   Sample.Qmean Sample.python_error
                   (Sample.world Sample.one_month (inr tt))
                   (Sample.world Sample.fourteen_months (inl "stopped"))
                   5 5 0%nat [] ("index", "co2") fit_options
                   0%nat (X_train (preprocess Sample.Qmean Sample.fourteen_months))
                   ("index", "co2") fit_options _ _));
    by vm_compute.
Defined.

(** A run whose [fit] raises ends there, with that exception. *)
Lemma failures_propagate_uncaught_witness :
  (run (notebook Sample.Qmean Sample.python_error
          (Sample.world Sample.one_month (inl "timeout")))).1 !! 5%nat
  = Some (EvFit 0%nat [] ("index", "co2") fit_options)
  ∧ raises (Sample.world Sample.one_month (inl "timeout"))
      (EvFit 0%nat [] ("index", "co2") fit_options)
    = Some "timeout"
  ∧ length (run (notebook Sample.Qmean Sample.python_error
                   (Sample.world Sample.one_month (inl "timeout")))).1
    = 6%nat
  ∧ (run (notebook Sample.Qmean Sample.python_error
            (Sample.world Sample.one_month (inl "timeout")))).2
    = inl "timeout".
Proof.
  split; [by vm_compute|]. split; [by vm_compute|].
  refine (proj2 (proj2 (proj2 (failures_propagate_uncaught
                                 Sample.Qmean Sample.python_error
                                 (Sample.world Sample.one_month (inl "timeout"))
                                 5
                                 (EvFit 0%nat [] ("index", "co2") fit_options)
                                 "timeout" _ _))) _);
    by vm_compute.
Defined.

(** Two series of thirteen months that differ in the last reading, and
    so, after the fill, in all twelve held-out values. *)
Lemma predictions_ignore_held_out_values_witness :
  y_test (preprocess Sample.Qmean (Sample.thirteen_months 317))
  ≠ y_test (preprocess Sample.Qmean (Sample.thirteen_months 318))
  ∧ run (predictions Sample.Qmean Sample.python_error
           (with_data (Sample.world [] (inr tt)) (Sample.thirteen_months 317)))
    = run (predictions Sample.Qmean Sample.python_error
             (with_data (Sample.world [] (inr tt))
                (Sample.thirteen_months 318))).
Proof.
  split; [by vm_compute|].
  refine (proj2 (proj2 (predictions_ignore_held_out_values
                          Sample.Qmean Sample.python_error
                          (Sample.world [] (inr tt))
                          (Sample.thirteen_months 317)
                          (Sample.thirteen_months 318) _ _)));
    by vm_compute.
Defined.


(** * Further properties of the loader and the splitter *)

Section LoaderFacts.
Context {V : Type} (mean : list V → option V).
Implicit Types (s : list (Z * option V)) (data : list (Row V)).
Implicit Types weekly : list (Timestamp * option V).

Lemma foldr_min_spec (m0 : Z) (ms : list Z) :
  foldr Z.min m0 ms ∈ m0 :: ms ∧ ∀ x, x ∈ m0 :: ms → foldr Z.min m0 ms ≤ x.
Proof.
  induction ms as [|m ms [Hmem Hle]]; simpl.
  - split; [by left|]. intros x ->%list_elem_of_singleton. lia.
  - rewrite elem_of_cons in Hmem. split.
    + rewrite !elem_of_cons.
      destruct (Z.min_spec m (foldr Z.min m0 ms)) as [[_ ->]|[_ ->]]; tauto.
    + intros x [->|[->|Hx]%elem_of_cons]%elem_of_cons.
      * specialize (Hle m0 ltac:(by left)). lia.
      * lia.
      * specialize (Hle x ltac:(by right)). lia.
Qed.

Lemma foldr_max_spec (m0 : Z) (ms : list Z) :
  foldr Z.max m0 ms ∈ m0 :: ms ∧ ∀ x, x ∈ m0 :: ms → x ≤ foldr Z.max m0 ms.
Proof.
  induction ms as [|m ms [Hmem Hle]]; simpl.
  - split; [by left|]. intros x ->%list_elem_of_singleton. lia.
  - rewrite elem_of_cons in Hmem. split.
    + rewrite !elem_of_cons.
      destruct (Z.max_spec m (foldr Z.max m0 ms)) as [[_ ->]|[_ ->]]; tauto.
    + intros x [->|[->|Hx]%elem_of_cons]%elem_of_cons.
      * specialize (Hle m0 ltac:(by left)). lia.
      * lia.
      * specialize (Hle x ltac:(by right)). lia.
Qed.

Lemma length_preprocess weekly :
  length (preprocess mean weekly) = length (resample_MS_mean mean weekly).
Proof.
  by rewrite <- (length_fmap index), preprocess_index, length_fmap.
Qed.

(** The value a resampled row holds is the mean of its month's bin. *)
Lemma resample_lookup weekly (i : nat) m x :
  resample_MS_mean mean weekly !! i = Some (m, x) →
  x = bin_mean mean (bin weekly m).
Proof.
  unfold resample_MS_mean.
  destruct (month_start ∘ fst <$> weekly) as [|m0 ms]; [done|].
  rewrite list_lookup_fmap. intros Hi.
  destruct (seqZ _ _ !! i) as [m'|]; simplify_eq/=. done.
Qed.

Lemma first_valid_cons (i : Z) (x : option V) s :
  first_valid ((i, x) :: s)
  = match x with Some v => Some v | None => first_valid s end.
Proof. by destruct x. Qed.

(** After the fill a row holds the first reading at or after it. *)
Lemma preprocess_co2_lookup weekly (i : nat) r :
  preprocess mean weekly !! i = Some r →
  co2 r = first_valid (drop i (resample_MS_mean mean weekly))
  ∧ ∃ x, resample_MS_mean mean weekly !! i = Some (index r, x).
Proof.
  rewrite preprocess_lookup. intros Hi.
  destruct (resample_MS_mean mean weekly !! i) as [[m x]|] eqn:Hr;
    simplify_eq/=.
  split; [|by eexists].
  rewrite (drop_S _ _ _ Hr), first_valid_cons. by destruct x.
Qed.

Lemma first_valid_drop_None s (i j : nat) :
  (i ≤ j)%nat → first_valid (drop i s) = None → first_valid (drop j s) = None.
Proof.
  intros Hij. replace j with (i + (j - i))%nat by lia.
  rewrite <- drop_drop. generalize (drop i s) (j - i)%nat. clear.
  unfold first_valid. intros l k Hl. revert k.
  induction l as [|[m [v|]] l IH]; intros [|k]; simpl in *; auto; done.
Qed.

Lemma first_valid_bfill s : first_valid (bfill s) = first_valid s.
Proof.
  induction s as [|[i x] r IH]; [done|]. simpl bfill.
  rewrite !first_valid_cons. destruct x as [v|]; [done|]. rewrite IH.
  by destruct (first_valid r).
Qed.

Lemma bfill_idempotent s : bfill (bfill s) = bfill s.
Proof.
  induction s as [|[i x] r IH]; simpl; [done|]. rewrite IH. f_equal.
  f_equal. destruct x as [v|]; [done|]. rewrite first_valid_bfill.
  by destruct (first_valid r).
Qed.

(** X1: for a series with at least one dated row the frame has exactly
    one row per month from the month of the earliest date to the month of
    the latest: every date's month is a label, and the first and the last
    label are months of dates of the series. *)
Theorem frame_spans_the_dates weekly :
  weekly ≠ [] →
  ∃ lo,
    index <$> preprocess mean weekly
    = seqZ lo (num_samples (preprocess mean weekly))
    ∧ (∀ r, r ∈ weekly →
            lo ≤ month_start r.1 < lo + num_samples (preprocess mean weekly))
    ∧ (∃ r, r ∈ weekly ∧ month_start r.1 = lo)
    ∧ (∃ r, r ∈ weekly
            ∧ month_start r.1 = lo + num_samples (preprocess mean weekly) - 1).
Proof.
  intros Hne. unfold num_samples.
  rewrite length_preprocess, preprocess_index. unfold resample_MS_mean.
  destruct (month_start ∘ fst <$> weekly) as [|m0 ms] eqn:Hms.
  { by apply fmap_nil_inv in Hms. }
  destruct (foldr_min_spec m0 ms) as [Hlo_in Hlo].
  destruct (foldr_max_spec m0 ms) as [Hhi_in Hhi].
  set (lo := foldr Z.min m0 ms) in *. set (hi := foldr Z.max m0 ms) in *.
  assert (lo ≤ hi) by (specialize (Hlo m0 ltac:(by left));
                       specialize (Hhi m0 ltac:(by left)); lia).
  exists lo. rewrite length_fmap, length_seqZ, <- list_fmap_compose.
  rewrite Z2Nat.id by lia. rewrite <- Hms in Hlo_in, Hhi_in, Hlo, Hhi.
  split; [|split; [|split]].
  - rewrite <- (list_fmap_id (seqZ lo (hi - lo + 1))) at 2.
    by apply list_fmap_ext.
  - intros r Hr.
    assert (month_start r.1 ∈ month_start ∘ fst <$> weekly) as Hin
      by (apply list_elem_of_fmap; by exists r).
    specialize (Hlo _ Hin). specialize (Hhi _ Hin). lia.
  - apply list_elem_of_fmap in Hlo_in as (r & Hr & Hin). by exists r.
  - apply list_elem_of_fmap in Hhi_in as (r & Hr & Hin). exists r.
    split; [done|]. simpl in Hr. lia.
Qed.

(** X2: the frame is empty exactly when the series has no row. *)
Theorem frame_empty_iff weekly : preprocess mean weekly = [] ↔ weekly = [].
Proof.
  split; [|by intros ->].
  intros Hnil. destruct (decide (weekly = [])) as [|Hne]; [done|]. exfalso.
  pose proof (length_preprocess weekly) as Hlen.
  rewrite Hnil in Hlen. unfold resample_MS_mean in Hlen.
  destruct (month_start ∘ fst <$> weekly) as [|m0 ms] eqn:Hms.
  { by apply fmap_nil_inv in Hms. }
  rewrite length_fmap, length_seqZ in Hlen.
  destruct (foldr_min_spec m0 ms) as [_ Hlo].
  destruct (foldr_max_spec m0 ms) as [_ Hhi].
  specialize (Hlo m0 ltac:(by left)). specialize (Hhi m0 ltac:(by left)).
  simpl in Hlen. lia.
Qed.

(** X3: the fill never overrides a month that has readings: when the
    mean of a month's readings is a number, the row of that month holds
    it. *)
Theorem month_with_readings_keeps_its_mean weekly r v :
  r ∈ preprocess mean weekly →
  bin weekly (index r) ≠ [] →
  mean (bin weekly (index r)) = Some v →
  co2 r = Some v.
Proof.
  intros [i Hi]%list_elem_of_lookup Hbin Hmean.
  rewrite preprocess_lookup in Hi.
  destruct (resample_MS_mean mean weekly !! i) as [[m x]|] eqn:Hr;
    simplify_eq/=.
  apply resample_lookup in Hr as ->. unfold bin_mean.
  destruct (bin weekly m); [done|]. by rewrite Hmean.
Qed.

(** X4: a row is missing after the fill exactly when the resampled
    series has no reading at or after it. *)
Theorem missing_after_fill_iff weekly (i : nat) m x :
  resample_MS_mean mean weekly !! i = Some (m, x) →
  preprocess mean weekly !! i = Some (mkRow m None)
  ↔ first_valid (drop i (resample_MS_mean mean weekly)) = None.
Proof.
  intros Hr. rewrite preprocess_lookup, Hr. simpl.
  rewrite (drop_S _ _ _ Hr), first_valid_cons.
  destruct x as [v|]; [split; intros; simplify_eq|].
  split; [by intros [= ->] | by intros ->].
Qed.

(** X5: the values still missing after the fill form the end of the
    frame: after a missing row every row is missing. *)
Theorem missing_rows_are_trailing weekly (i j : nat) r r' :
  preprocess mean weekly !! i = Some r → co2 r = None →
  (i ≤ j)%nat → preprocess mean weekly !! j = Some r' →
  co2 r' = None.
Proof.
  intros [Hi _]%preprocess_co2_lookup Hnone Hij [Hj _]%preprocess_co2_lookup.
  rewrite Hj. eapply first_valid_drop_None; [done|]. by rewrite <- Hi.
Qed.

(** X6: no value of the frame is missing exactly when the resampled
    series is empty or its last month has a reading. *)
Theorem frame_complete_iff weekly :
  Forall (λ r, is_Some (co2 r)) (preprocess mean weekly)
  ↔ resample_MS_mean mean weekly = []
    ∨ ∃ m v, last (resample_MS_mean mean weekly) = Some (m, Some v).
Proof.
  split.
  - intros Hall.
    destruct (last (resample_MS_mean mean weekly)) as [[m [v|]]|] eqn:Hlast.
    + right. by exists m, v.
    + exfalso. rewrite last_lookup in Hlast.
      set (k := pred (length (resample_MS_mean mean weekly))) in *.
      assert (preprocess mean weekly !! k = Some (mkRow m None)) as Hk.
      { rewrite preprocess_lookup, Hlast. simpl. do 2 f_equal.
        rewrite drop_ge; [done|]. subst k. lia. }
      rewrite Forall_lookup in Hall. by destruct (Hall _ _ Hk).
    + left. by apply last_None.
  - intros [Hnil|(m & v & Hlast)].
    + rewrite preprocess_bfill, Hnil. constructor.
    + unfold preprocess. rewrite fillna_bfill. unfold reset_index.
      apply Forall_fmap. eapply Forall_impl; [by eapply bfill_complete|].
      by intros [??].
Qed.

(** X7: filling twice is filling once. *)
Theorem fill_idempotent s :
  fillna (fillna s (bfill s)) (bfill (fillna s (bfill s)))
  = fillna s (bfill s).
Proof. by rewrite !fillna_bfill, !bfill_idempotent. Qed.

(** X8: the training table is empty exactly when the frame has at most 6
    rows or exactly 12. *)
Theorem X_train_empty_iff data :
  X_train data = [] ↔ num_samples data ≤ 6 ∨ num_samples data = 12.
Proof.
  rewrite <- length_zero_iff_nil, length_X_train.
  unfold cut, split_idx, num_samples, time_horizon, adjust_index.
  case_decide; lia.
Qed.

(** X9: the test table is empty only for an empty frame. *)
Theorem X_test_empty_iff data : X_test data = [] ↔ data = [].
Proof.
  rewrite <- !length_zero_iff_nil, length_X_test.
  unfold cut, split_idx, num_samples, time_horizon, adjust_index.
  case_decide; lia.
Qed.

(** X10: the test table has as many rows as the horizon exactly when the
    frame has at least that many; it never has more. *)
Theorem test_rows_equal_horizon_iff data :
  (Z.of_nat (length (X_test data)) = time_horizon
   ↔ time_horizon ≤ num_samples data)
  ∧ Z.of_nat (length (X_test data)) ≤ time_horizon.
Proof.
  rewrite length_X_test.
  unfold cut, split_idx, num_samples, time_horizon, adjust_index.
  case_decide; lia.
Qed.

(** X11: with 7 to 11 rows the negative [split_idx] counts from the end
    of the frame: the first [2 n - 12] rows are the training table and
    only the last [12 - n] rows are held out. *)
Theorem negative_split_counts_from_the_end data :
  6 < num_samples data < time_horizon →
  X_train data = take (2 * length data - 12) data
  ∧ test_rows data = drop (2 * length data - 12) data
  ∧ length (X_train data) = (2 * length data - 12)%nat
  ∧ length (X_test data) = (12 - length data)%nat.
Proof.
  intros [Hlo Hshort]. pose proof (cut_short _ Hshort) as Hcut.
  rewrite length_X_train, length_X_test, test_rows_drop, X_train_take, Hcut.
  unfold num_samples, time_horizon in *. repeat split; lia.
Qed.

End LoaderFacts.

(** * Further properties of the forecast driver and the reporter *)

Section DriverFacts.
Context {V Exn Obj : Type}.
Variable mean : list V → option V.
Variable python_error : PyErr → Exn.
#[local] Existing Instances M_ret M_bind.

#[local] Abbreviation M := (@M V Exn Obj).
#[local] Abbreviation World := (@World V Exn Obj).
#[local] Abbreviation Event := (@Event V Obj).

Ltac learning_curve_cell :=
  match goal with
  | |- context [cell_learning_curve _ ?h] =>
      is_var h; destruct h as [[[[? ?] ?] ?] ?];
      unfold cell_learning_curve, do_import, do_plt
  end.

Ltac unfold_cells :=
  unfold forecast, cell_install, cell_load, cell_automl, cell_best,
    cell_estimator, cell_pickle, cell_predict, cell_labels, cell_metric,
    cell_forecast_plot, do_import, do_getattr, do_print, do_plt.

(** ** What a computation returns *)

Lemma bind_returns {A B} (m : M A) (k : A → M B) tr b :
  ((m ≫= k) tr).2 = inr b →
  ∃ a tr', (m tr).2 = inr a ∧ (k a tr').2 = inr b.
Proof.
  unfold mbind, M_bind. destruct (m tr) as [tr' [e|a]]; simpl; [done|].
  intros Hk. by exists a, tr'.
Qed.

Lemma cell_load_returns (w : World) tr data :
  (cell_load mean w tr).2 = inr data →
  ∃ weekly, load_pandas w = inr weekly ∧ data = preprocess mean weekly.
Proof.
  unfold cell_load. intros (_ & tr1 & _ & Hk)%bind_returns.
  apply bind_returns in Hk as (weekly & tr2 & Hload & Hret).
  simpl in Hload, Hret. exists weekly. split; [done|]. by simplify_eq.
Qed.

Lemma forecast_returns (w : World) train dates tr p :
  (forecast python_error w train dates tr).2 = inr p →
  ∃ automl, predict w automl dates = inr p.
Proof.
  unfold forecast. intros (automl & tr1 & _ & Hk)%bind_returns.
  do 4 apply bind_returns in Hk as (_ & ? & _ & Hk).
  by exists automl.
Qed.

(** ** Where the arguments come from *)

Lemma emits_bind_val (P : Event → Prop) {A B} (m : M A) (k : A → M B) :
  emits P m → (∀ a, (∃ tr, (m tr).2 = inr a) → emits P (k a)) →
  emits P (m ≫= k).
Proof.
  intros Hm Hk tr Htr. specialize (Hm tr Htr).
  unfold mbind, M_bind. destruct (m tr) as [tr' [e|a]] eqn:Hmtr; simpl in *.
  - done.
  - apply Hk; [|done]. exists tr. by rewrite Hmtr.
Qed.

Ltac emits_step :=
  first
    [ apply emits_ret
    | apply emits_raise
    | apply emits_for_each; intros ?
    | apply emits_with_open; [| intros ? | intros ?]
    | apply emits_bind; [| intros ?]
    | apply emits_call ].

Ltac emits_walk :=
  repeat first
    [ rewrite cell_fit_call | rewrite cell_log_call | learning_curve_cell
    | emits_step ].

Lemma notebook_log_as_configured (w : World) :
  emits log_as_configured (notebook mean python_error w).
Proof.
  unfold notebook. unfold_cells. emits_walk; done.
Qed.

Lemma notebook_wired (w : World) :
  emits (wired mean w) (notebook mean python_error w).
Proof.
  unfold notebook. apply emits_bind; [by apply emits_call|]. intros _.
  apply emits_bind_val.
  { unfold_cells. emits_walk; done. }
  intros data [tr (weekly & Hload & ->)%cell_load_returns].
  apply emits_bind_val.
  { unfold_cells. emits_walk; try done. by exists weekly. }
  intros p [tr' [automl Hp]%forecast_returns].
  unfold_cells. emits_walk; try done.
  split; [by vm_compute|]. by exists weekly, automl.
Qed.

(** Every training date precedes every held-out date. *)
Lemma train_before_test weekly r d :
  r ∈ X_train (preprocess mean weekly) →
  d ∈ X_test (preprocess mean weekly) →
  index r < d.
Proof.
  destruct (preprocess_months mean weekly) as [lo Hlo].
  set (data := preprocess mean weekly) in *.
  pose proof (cut_le data) as Hle. intros Hr.
  assert (index r ∈ index <$> X_train data) as Hin
    by (apply list_elem_of_fmap; by exists r).
  revert Hin. rewrite X_train_take, X_test_drop, fmap_take, fmap_drop, Hlo.
  rewrite take_seqZ, drop_seqZ by (unfold num_samples; lia).
  rewrite !elem_of_seqZ. lia.
Qed.

(** X12: a [fit] call is handed the training table of the loaded series
    and no other row: [data[:split_idx]] of the preprocessed answer of
    [load_pandas], every date of which is earlier than every held-out
    date. *)
Theorem fit_gets_training_table (w : World) (i : nat)
    automl df label kwargs :
  (run (notebook mean python_error w)).1 !! i
  = Some (EvFit automl df label kwargs) →
  ∃ weekly,
    load_pandas w = inr weekly
    ∧ df = X_train (preprocess mean weekly)
    ∧ ∀ r d, r ∈ df → d ∈ X_test (preprocess mean weekly) → index r < d.
Proof.
  intros Hi.
  pose proof (notebook_wired w [] (Forall_nil_2 _)) as Hall.
  rewrite Forall_lookup in Hall.
  destruct (Hall _ _ Hi) as (weekly & Hload & ->).
  exists weekly. repeat split; [done|]. apply train_before_test.
Qed.

(** X13: the metric that is computed on the held-out rows is the one the
    settings name, 'mape'; it compares the answer of [predict] on the
    held-out dates with the held-out values of the loaded series. *)
Theorem metric_compares_predictions_with_y_test (w : World) (i : nat)
    metric y_pred y_true :
  (run (notebook mean python_error w)).1 !! i
  = Some (EvLossScore metric y_pred y_true) →
  metric = "mape"
  ∧ settings !! "metric" = Some (PyStr metric)
  ∧ ∃ weekly automl,
      load_pandas w = inr weekly
      ∧ y_true = y_test (preprocess mean weekly)
      ∧ predict w automl (X_test (preprocess mean weekly)) = inr y_pred.
Proof.
  intros Hi.
  pose proof (notebook_wired w [] (Forall_nil_2 _)) as Hall.
  rewrite Forall_lookup in Hall.
  destruct (Hall _ _ Hi) as (Hmetric & Hrest).
  split; [|done]. vm_compute in Hmetric. by simplify_eq.
Qed.

(** X14: the log that is parsed is the file [fit] was told to write, and
    it is read up to the time budget [fit] was given. *)
Theorem log_reader_matches_fit_options (w : World) (i j : nat)
    name budget automl df label kwargs :
  (run (notebook mean python_error w)).1 !! i
  = Some (EvGetOutputFromLog name budget) →
  (run (notebook mean python_error w)).1 !! j
  = Some (EvFit automl df label kwargs) →
  kwargs !! "log_file_name" = Some name
  ∧ kwargs !! "time_budget" = Some (PyInt budget).
Proof.
  intros Hi [_ ->]%fit_event_configured.
  pose proof (notebook_log_as_configured w [] (Forall_nil_2 _)) as Hall.
  rewrite Forall_lookup in Hall. destruct (Hall _ _ Hi) as [Hname Hbudget].
  vm_compute in Hname, Hbudget. simplify_eq. split; by vm_compute.
Qed.

(** ** Properties of the trace that a computation keeps *)

Section Keeps.
Variable Q : list Event → Prop.

Lemma keeps_ret {A} (a : A) : keeps Q (mret a : M A).
Proof. by intros tr Htr. Qed.

Lemma keeps_call {A} ev (r : Exn + A) :
  (∀ tr, Q tr → Q (tr ++ [ev])) → keeps Q (call ev r).
Proof. intros Hev tr Htr. by apply Hev. Qed.

Lemma keeps_bind {A B} (m : M A) (k : A → M B) :
  keeps Q m → (∀ a, keeps Q (k a)) → keeps Q (m ≫= k).
Proof.
  intros Hm Hk tr Htr. specialize (Hm tr Htr).
  unfold mbind, M_bind. destruct (m tr) as [tr' [e|a]]; simpl in *.
  - done.
  - by apply Hk.
Qed.

Lemma keeps_for_each {A} (xs : list A) (body : A → M unit) :
  (∀ x, keeps Q (body x)) → keeps Q (for_each xs body).
Proof.
  intros Hbody. induction xs as [|x xs IH]; simpl.
  - apply keeps_ret.
  - apply keeps_bind; [apply Hbody | by intros _].
Qed.

Lemma keeps_with_open {A} (w : World) file mode (body : Obj → M A) :
  (∀ tr, Q tr → Q (tr ++ [EvOpen file mode])) →
  (∀ f tr, Q tr → Q (tr ++ [EvClose f])) →
  (∀ f, keeps Q (body f)) →
  keeps Q (with_open w file mode body).
Proof.
  intros Hopen Hclose Hbody. unfold with_open.
  apply keeps_bind; [by apply keeps_call|]. intros f tr Htr.
  specialize (Hbody f tr Htr). destruct (body f tr) as [tr1 r1].
  simpl in *. destruct (close w f); simpl; by apply Hclose.
Qed.
End Keeps.

(** ** Exceptions come from calls *)

Section Strict.
Variable w : World.
#[local] Arguments raises : simpl never.

Lemma strict_ret {A} (a : A) : strict w (mret a : M A).
Proof. by intros tr Htr. Qed.

Lemma strict_call {A} ev (r : Exn + A) :
  raises w ev = error_of r → strict w (call ev r).
Proof.
  intros Hev tr Htr. destruct r as [e|a]; simpl in *.
  - exists tr, ev, [].
    repeat split; [done | by eexists | constructor |].
    by apply last_raised_singleton.
  - by apply quiet_snoc.
Qed.

Lemma strict_bind {A B} (m : M A) (k : A → M B) :
  strict w m → (∀ a, strict w (k a)) → strict w (m ≫= k).
Proof.
  intros Hm Hk tr Htr. specialize (Hm tr Htr).
  unfold mbind, M_bind. destruct (m tr) as [tr' [e|a]]; simpl in *.
  - done.
  - by apply Hk.
Qed.

Lemma strict_for_each {A} (xs : list A) (body : A → M unit) :
  (∀ x, strict w (body x)) → strict w (for_each xs body).
Proof.
  intros Hbody. induction xs as [|x xs IH]; simpl.
  - apply strict_ret.
  - apply strict_bind; [apply Hbody | by intros _].
Qed.

Lemma strict_with_open {A} file mode (ev : Obj → Event)
    (r : Obj → Exn + A) :
  (∀ f, raises w (ev f) = error_of (r f)) →
  (∀ f, in_with_block (ev f) = true) →
  strict w (with_open w file mode (λ f, call (ev f) (r f))).
Proof.
  intros Hev Hin. unfold with_open.
  apply strict_bind; [by apply strict_call|]. intros f tr Htr.
  specialize (Hev f). simpl.
  destruct (close w f) as [e'|[]] eqn:Hclose; simpl.
  - assert (Hc : raises w (EvClose f) = Some e')
      by (unfold raises; by rewrite Hclose).
    destruct (r f) as [e|a]; simpl in Hev.
    + exists tr, (ev f), [EvClose f]. rewrite <- app_assoc.
      repeat split; [done | by eexists | by repeat constructor | |].
      * intros Hout. by rewrite Hin in Hout.
      * change [ev f; EvClose f] with ([ev f] ++ [EvClose f]).
        by rewrite last_raised_snoc, Hc.
    + exists (tr ++ [ev f]), (EvClose f), [].
      repeat split; [by apply quiet_snoc | by eexists | constructor |].
      by apply last_raised_singleton.
  - assert (Hc : raises w (EvClose f) = None)
      by (unfold raises; by rewrite Hclose).
    destruct (r f) as [e|a]; simpl in Hev |- *.
    + exists tr, (ev f), [EvClose f]. rewrite <- app_assoc.
      repeat split; [done | by eexists | by repeat constructor | |].
      * intros Hout. by rewrite Hin in Hout.
      * change [ev f; EvClose f] with ([ev f] ++ [EvClose f]).
        rewrite last_raised_snoc, Hc. by apply last_raised_singleton.
    + by repeat apply quiet_snoc.
Qed.

(** The exception an unwound trace ends with was raised by one of its
    calls. *)
Lemma unwound_raised tr e :
  unwound w tr e →
  ∃ (i : nat) ev, tr !! i = Some ev ∧ raises w ev = Some e.
Proof.
  intros (pre & ev & post & -> & _ & _ & _ & _ & Hlast).
  unfold last_raised in Hlast. apply last_Some_elem_of in Hlast.
  apply list_elem_of_omap in Hlast as (ev' & Hin & Hev').
  apply list_elem_of_lookup in Hin as [k Hk].
  exists (length pre + k)%nat, ev'. split; [|done].
  rewrite lookup_app_r by lia.
  by replace (length pre + k - length pre)%nat with k by lia.
Qed.
End Strict.

Ltac strict_step :=
  first
    [ apply strict_ret
    | apply strict_for_each; intros ?
    | apply strict_with_open; [intros ?; reflexivity | done]
    | apply strict_bind; [| intros ?]
    | apply strict_call; reflexivity ].

Lemma notebook_strict (w : World) : strict w (notebook mean python_error w).
Proof.
  unfold notebook. unfold_cells.
  repeat first
    [ rewrite cell_fit_call | rewrite cell_log_call | learning_curve_cell
    | strict_step ].
Qed.

(** X15: a run returns exactly when none of its calls raised, and the
    exception a run ends with was raised by one of its calls: the
    notebook's own expressions, the subscript of the settings and the
    keyword arguments of [fit], never raise. *)
Theorem run_fails_only_by_a_call (w : World) :
  ((run (notebook mean python_error w)).2 = inr tt
   ↔ quiet w (run (notebook mean python_error w)).1)
  ∧ ∀ e, (run (notebook mean python_error w)).2 = inl e →
         ∃ (i : nat) ev,
           (run (notebook mean python_error w)).1 !! i = Some ev
           ∧ raises w ev = Some e.
Proof.
  pose proof (notebook_strict w [] (Forall_nil_2 _)) as Hrun.
  unfold run. destruct (notebook mean python_error w []) as [tr [e|[]]];
    simpl in *.
  - apply unwound_raised in Hrun as (i & ev & Hi & Hev). split.
    + split; [done|]. intros Hq. unfold quiet in Hq.
      rewrite Forall_lookup in Hq.
      rewrite (Hq _ _ Hi) in Hev. done.
    + intros e' [= <-]. by exists i, ev.
  - split; [done|]. by intros e' [=].
Qed.

(** ** The file *)

Section Balanced.
Variable w : World.

Lemma balanced_snoc tr ev :
  balanced w tr → (∀ file mode, ev ≠ EvOpen file mode) →
  balanced w (tr ++ [ev]).
Proof.
  intros Hb Hne i file mode f Hi Hopen.
  apply lookup_app_Some in Hi as [Hi|[Hlen Hi]].
  - destruct (Hb _ _ _ _ Hi Hopen) as (j & Hj & Hl). exists j.
    split; [done|]. by apply lookup_app_l_Some.
  - destruct (i - length tr)%nat; simplify_eq/=. by destruct (Hne file mode).
Qed.

Lemma keeps_balanced_with_open {A} file mode (ev : Obj → Event)
    (r : Obj → Exn + A) :
  (∀ f file' mode', ev f ≠ EvOpen file' mode') →
  keeps (balanced w) (with_open w file mode (λ f, call (ev f) (r f))).
Proof.
  intros Hne tr Hb. unfold with_open, mbind, M_bind, call. simpl.
  destruct (open w file mode) as [e|f] eqn:Hopen; simpl.
  - intros i file' mode' f' Hi Hopen'.
    apply lookup_app_Some in Hi as [Hi|[Hlen Hi]].
    + destruct (Hb _ _ _ _ Hi Hopen') as (j & Hj & Hl). exists j.
      split; [done|]. by apply lookup_app_l_Some.
    + destruct (i - length tr)%nat; simplify_eq/=. congruence.
  - assert (balanced w (tr ++ [EvOpen file mode; ev f; EvClose f])) as Hb'.
    { intros i file' mode' f' Hi Hopen'.
      apply lookup_app_Some in Hi as [Hi|[Hlen Hi]].
      - destruct (Hb _ _ _ _ Hi Hopen') as (j & Hj & Hl). exists j.
        split; [done|]. by apply lookup_app_l_Some.
      - destruct (i - length tr)%nat as [|[|[|k]]] eqn:Hk; simplify_eq/=.
        + exists (length tr + 2)%nat. split; [lia|].
          rewrite lookup_app_r by lia.
          replace (length tr + 2 - length tr)%nat with 2%nat by lia.
          simpl. congruence.
        + by destruct (Hne f file' mode'). }
    destruct (close w f); simpl; by rewrite <- !app_assoc.
Qed.
End Balanced.

Ltac balanced_step :=
  first
    [ apply keeps_ret
    | apply keeps_for_each; intros ?
    | apply keeps_balanced_with_open; intros ???; discriminate
    | apply keeps_bind; [| intros ?]
    | apply keeps_call; intros ??; apply balanced_snoc;
      [done | intros ??; discriminate] ].

Lemma notebook_balanced (w : World) :
  keeps (balanced w) (notebook mean python_error w).
Proof.
  unfold notebook. unfold_cells.
  repeat first
    [ rewrite cell_fit_call | rewrite cell_log_call | learning_curve_cell
    | balanced_step ].
Qed.

(** X16: a file the notebook has opened is closed again before the run
    ends, whether the run returns or ends in an exception. *)
Theorem opened_file_is_closed (w : World) (i : nat) file mode f :
  (run (notebook mean python_error w)).1 !! i = Some (EvOpen file mode) →
  open w file mode = inr f →
  ∃ j : nat,
    (i < j)%nat
    ∧ (run (notebook mean python_error w)).1 !! j = Some (EvClose f).
Proof.
  apply (notebook_balanced w []). intros j ???. by rewrite lookup_nil.
Qed.

(** ** The places of [fit] and [predict] *)

Lemma placed_snoc (tr : list Event) ev :
  placed tr → in_place (length tr) ev → placed (tr ++ [ev]).
Proof.
  intros Htr Hev i ev' Hi.
  apply lookup_app_Some in Hi as [Hi|[Hlen Hi]]; [by apply Htr|].
  destruct (i - length tr)%nat eqn:Hk; simplify_eq/=.
  by replace i with (length tr) by lia.
Qed.

Lemma paced_ret {A} (n : nat) (a : A) : @paced V Exn Obj n n A (mret a).
Proof. by intros tr Htr Hlen. Qed.

Lemma paced_call {A} (n : nat) (ev : Event) (r : Exn + A) :
  in_place n ev → paced n (S n) (call ev r).
Proof.
  intros Hev tr Htr <-. simpl. split; [by apply placed_snoc|].
  intros _ _. rewrite length_app. simpl. lia.
Qed.

Lemma paced_bind {A B} (n n1 n2 : nat) (m : M A) (k : A → M B) :
  paced n n1 m → (∀ a, paced n1 n2 (k a)) → paced n n2 (m ≫= k).
Proof.
  intros Hm Hk tr Htr Hlen. destruct (Hm tr Htr Hlen) as [Hpl Hn1].
  unfold mbind, M_bind. destruct (m tr) as [tr' [e|a]]; simpl in *.
  - done.
  - by apply Hk, (Hn1 a).
Qed.

Lemma paced_with_open {A} (w : World) (n : nat) file mode
    (ev : Obj → Event) (r : Obj → Exn + A) :
  in_place n (EvOpen file mode : Event) →
  (∀ f, in_place (S n) (ev f)) →
  (∀ f, in_place (S (S n)) (EvClose f : Event)) →
  paced n (S (S (S n))) (with_open w file mode (λ f, call (ev f) (r f))).
Proof.
  intros Hopen Hev Hclose. unfold with_open.
  apply (paced_bind n (S n)); [by apply paced_call|].
  intros f tr Htr Hlen. simpl.
  assert (placed ((tr ++ [ev f]) ++ [EvClose f])) as Hpl.
  { apply placed_snoc; [apply placed_snoc; [done|rewrite Hlen; apply Hev]|].
    rewrite length_app, Hlen. simpl.
    replace (S (n + 1)) with (S (S n)) by lia. apply Hclose. }
  destruct (close w f); simpl; (split; [done|]); [done|].
  intros _ _. rewrite !length_app. simpl. lia.
Qed.

(** A paced start, then anything that keeps the calls placed. *)
Lemma paced_then {A B} (n n' : nat) (m : M A) (k : A → M B) :
  paced n n' m →
  (∀ a tr, placed tr → length tr = n' → placed (k a tr).1) →
  ∀ tr, placed tr → length tr = n → placed ((m ≫= k) tr).1.
Proof.
  intros Hm Hk tr Htr Hlen. destruct (Hm tr Htr Hlen) as [Hpl Hn'].
  unfold mbind, M_bind. destruct (m tr) as [tr' [e|a]]; simpl in *.
  - done.
  - by apply Hk, (Hn' a).
Qed.

(** Past the place of [predict], any other call keeps the calls placed. *)
Lemma late_snoc (tr : list Event) ev :
  is_fit ev = false → is_predict ev = false →
  placed tr ∧ (22 ≤ length tr)%nat →
  placed (tr ++ [ev]) ∧ (22 ≤ length (tr ++ [ev]))%nat.
Proof.
  intros Hfit Hpredict [Htr Hlen]. split; [|rewrite length_app; lia].
  apply placed_snoc; [done|]. unfold in_place.
  rewrite Hfit, Hpredict. split; split; (done || lia).
Qed.

Ltac in_place_now :=
  unfold in_place; simpl; split; split; intros; first [done | lia].

Ltac paced_step :=
  first
    [ apply paced_ret
    | eapply paced_with_open; [in_place_now | intros ?; in_place_now
                              | intros ?; in_place_now]
    | eapply paced_bind; [| intros ?]
    | apply paced_call; in_place_now ].

Ltac late_step :=
  first
    [ apply keeps_ret
    | apply keeps_for_each; intros ?
    | apply keeps_bind; [| intros ?]
    | apply keeps_call; intros ?; by apply late_snoc ].

Lemma notebook_places (w : World) :
  ∀ tr : list Event, placed tr → length tr = 0%nat →
                     placed (notebook mean python_error w tr).1.
Proof.
  unfold notebook.
  apply (paced_then 0 1); [unfold_cells; by repeat paced_step|]. intros _.
  apply (paced_then 1 3); [unfold_cells; by repeat paced_step|]. intros data.
  apply (paced_then 3 22).
  { unfold_cells. by repeat first [rewrite cell_fit_call | paced_step]. }
  intros flaml_y_pred tr Htr Hlen.
  assert (placed tr ∧ (22 ≤ length tr)%nat) as Hlate by (split; [done|lia]).
  revert Hlate. generalize tr. clear.
  cut (keeps (λ tr : list Event, placed tr ∧ (22 ≤ length tr)%nat)
         (cell_labels w flaml_y_pred (y_test data) ;;
          cell_metric w flaml_y_pred (y_test data) ;;
          h ← cell_log python_error w;
          cell_learning_curve w h ;;
          cell_forecast_plot w (X_test data) (y_test data) flaml_y_pred)).
  { intros Hkeeps tr Hlate. by destruct (Hkeeps tr Hlate). }
  unfold_cells.
  repeat first
    [ rewrite cell_log_call | learning_curve_cell | late_step ].
Qed.

Lemma notebook_placed (w : World) :
  placed (run (notebook mean python_error w)).1.
Proof.
  apply notebook_places; [|done]. intros i ev Hi. by rewrite lookup_nil in Hi.
Qed.

(** X17: [fit] can only be the sixth call of a run and [predict] only the
    twenty-second, and these places hold no other call: each is called at
    most once, nothing is retried, and [predict] is called only when every
    earlier call, [fit] among them, has returned. *)
Theorem fit_and_predict_once_in_order (w : World) (i : nat) ev :
  (run (notebook mean python_error w)).1 !! i = Some ev →
  (is_fit ev = true ↔ i = 5%nat)
  ∧ (is_predict ev = true ↔ i = 21%nat)
  ∧ (is_predict ev = true →
     ∀ (j : nat) ev', (j < i)%nat →
       (run (notebook mean python_error w)).1 !! j = Some ev' →
       raises w ev' = None).
Proof.
  intros Hi. destruct (notebook_placed w i ev Hi) as [Hfit Hpredict].
  split; [done|]. split; [done|]. intros Hp j ev' Hj Hlook.
  pose proof (notebook_propagating mean python_error w [] (Forall_nil_2 _))
    as Hout.
  unfold run in *.
  destruct (notebook mean python_error w []) as [tr r]. simpl in *.
  assert (quiet w tr
          ∨ ∃ e, unwound w tr e) as [Hq|[e Hun]]
    by (destruct r; [destruct Hout|]; eauto).
  { unfold quiet in Hq. rewrite Forall_lookup in Hq. by eapply Hq. }
  destruct Hun as (pre & ev0 & post & -> & Hpre & _ & Hpost & _).
  unfold quiet in Hpre. rewrite Forall_lookup in Hpre.
  destruct (decide (j < length pre)%nat) as [Hjpre|Hjpre].
  { rewrite lookup_app_l in Hlook by done. by eapply Hpre. }
  exfalso. rewrite lookup_app_r in Hi by lia.
  destruct (i - length pre)%nat as [|k] eqn:Hk; [lia|]. simpl in Hi.
  rewrite Forall_lookup in Hpost. specialize (Hpost _ _ Hi).
  by destruct ev.
Qed.

(** ** The loop over the configurations *)

(** X18: when every [print] returns, the loop of cell 18 prints each
    configuration of the history once, in order, and nothing else. *)
Theorem loop_prints_every_config (w : World) (configs : list Obj) tr :
  (∀ c, c ∈ configs → print w [VObj c] = inr tt) →
  for_each configs (λ config, do_print w [VObj config]) tr
  = (tr ++ ((λ c, EvPrint [VObj c]) <$> configs), inr tt).
Proof.
  revert tr. induction configs as [|c cs IH]; intros tr Hall; simpl.
  - by rewrite app_nil_r.
  - unfold mbind, M_bind, do_print, call at 1.
    rewrite (Hall c) by (by left). simpl.
    rewrite IH by (intros c' Hc'; apply Hall; by right).
    by rewrite <- app_assoc.
Qed.

(** X19: the loop stops at the first [print] that raises: the
    configurations before it are printed, the later ones are not, and the
    exception leaves the loop. *)
Theorem loop_stops_at_first_failure (w : World) (before after : list Obj)
    c e tr :
  (∀ c', c' ∈ before → print w [VObj c'] = inr tt) →
  print w [VObj c] = inl e →
  for_each (before ++ c :: after) (λ config, do_print w [VObj config]) tr
  = (tr ++ ((λ c, EvPrint [VObj c]) <$> before ++ [c]), inl e).
Proof.
  revert tr. induction before as [|b bs IH]; intros tr Hall Hc; simpl.
  - unfold mbind, M_bind, do_print, call at 1. by rewrite Hc.
  - unfold mbind, M_bind, do_print, call at 1.
    rewrite (Hall b) by (by left). simpl.
    rewrite IH by (try done; intros c' Hc'; apply Hall; by right).
    by rewrite <- app_assoc.
Qed.

End DriverFacts.

(** ** The further properties on sample runs *)

Lemma frame_spans_the_dates_witness :
  Sample.ten_months ≠ []
  ∧ ∃ lo, index <$> preprocess Sample.Qmean Sample.ten_months = seqZ lo 10.
Proof.
  split; [done|].
  destruct (frame_spans_the_dates Sample.Qmean Sample.ten_months)
    as (lo & Hlo & _); [done|].
  by exists lo.
Defined.

Lemma month_with_readings_keeps_its_mean_witness :
  mkRow 23498 (Some (QArith_base.Qmake 316 1))
  ∈ preprocess Sample.Qmean Sample.inner_gap
  ∧ co2 (mkRow 23498 (Some (QArith_base.Qmake 316 1)))
    = Some (QArith_base.Qmake 316 1).
Proof.
  assert (mkRow 23498 (Some (QArith_base.Qmake 316 1))
          ∈ preprocess Sample.Qmean Sample.inner_gap) as Hin
    by (apply (list_elem_of_lookup_2 _ 0%nat); by vm_compute).
  split; [done|].
  apply (month_with_readings_keeps_its_mean Sample.Qmean Sample.inner_gap
           _ _ Hin); by vm_compute.
Defined.

Lemma missing_after_fill_iff_witness :
  resample_MS_mean Sample.Qmean two_trailing_gaps !! 1%nat
  = Some (24022, None)
  ∧ preprocess Sample.Qmean two_trailing_gaps !! 1%nat
    = Some (mkRow 24022 None).
Proof.
  split; [by vm_compute|].
  apply (missing_after_fill_iff Sample.Qmean two_trailing_gaps 1 24022 None);
    by vm_compute.
Defined.

Lemma missing_rows_are_trailing_witness :
  preprocess Sample.Qmean two_trailing_gaps !! 1%nat
  = Some (mkRow 24022 None)
  ∧ preprocess Sample.Qmean two_trailing_gaps !! 2%nat
    = Some (mkRow 24023 None)
  ∧ co2 (mkRow 24023 (None : option QArith_base.Q)) = None.
Proof.
  split; [by vm_compute|]. split; [by vm_compute|].
  apply (missing_rows_are_trailing Sample.Qmean two_trailing_gaps 1 2
           (mkRow 24022 None));
    first [by vm_compute | lia].
Defined.

Lemma negative_split_counts_from_the_end_witness :
  6 < num_samples (preprocess Sample.Qmean Sample.ten_months) < time_horizon
  ∧ length (X_train (preprocess Sample.Qmean Sample.ten_months)) = 8%nat
  ∧ length (X_test (preprocess Sample.Qmean Sample.ten_months)) = 2%nat.
Proof.
  split; [by vm_compute|].
  refine (proj2 (proj2 (negative_split_counts_from_the_end
                          (preprocess Sample.Qmean Sample.ten_months) _))).
  by vm_compute.
Defined.

Lemma fit_gets_training_table_witness :
  (run (notebook Sample.Qmean Sample.python_error
          (Sample.world Sample.fourteen_months (inr tt)))).1 !! 5%nat
  = Some (EvFit 0%nat
            (X_train (preprocess Sample.Qmean Sample.fourteen_months))
            ("index", "co2") fit_options)
  ∧ ∃ weekly,
      load_pandas (Sample.world Sample.fourteen_months (inr tt)) = inr weekly
      ∧ X_train (preprocess Sample.Qmean Sample.fourteen_months)
        = X_train (preprocess Sample.Qmean weekly).
Proof.
  split; [by vm_compute|].
  destruct (fit_gets_training_table Sample.Qmean Sample.python_error
              (Sample.world Sample.fourteen_months (inr tt)) 5 0%nat
              (X_train (preprocess Sample.Qmean Sample.fourteen_months))
              ("index", "co2") fit_options)
    as (weekly & Hload & Hdf & _); [by vm_compute|].
  by exists weekly.
Defined.

Lemma metric_compares_predictions_with_y_test_witness :
  (run (notebook Sample.Qmean Sample.python_error
          (Sample.world Sample.one_month (inr tt)))).1 !! 25%nat
  = Some (EvLossScore "mape" 8%nat
            (y_test (preprocess Sample.Qmean Sample.one_month)))
  ∧ settings !! "metric" = Some (PyStr "mape").
Proof.
  split; [by vm_compute|].
  refine (proj1 (proj2 (metric_compares_predictions_with_y_test
                          Sample.Qmean Sample.python_error
                          (Sample.world Sample.one_month (inr tt)) 25
                          "mape" 8%nat
                          (y_test (preprocess Sample.Qmean Sample.one_month))
                          _))).
  by vm_compute.
Defined.

Lemma log_reader_matches_fit_options_witness :
  (run (notebook Sample.Qmean Sample.python_error
          (Sample.world Sample.one_month (inr tt)))).1 !! 28%nat
  = Some (EvGetOutputFromLog (PyStr "CO2_forecast.log") 180)
  ∧ fit_options !! "log_file_name" = Some (PyStr "CO2_forecast.log")
  ∧ fit_options !! "time_budget" = Some (PyInt 180).
Proof.
  split; [by vm_compute|].
  apply (log_reader_matches_fit_options Sample.Qmean Sample.python_error
           (Sample.world Sample.one_month (inr tt)) 28 5
           (PyStr "CO2_forecast.log") 180 0%nat [] ("index", "co2")
           fit_options);
    by vm_compute.
Defined.

(** In a run where every call returns, the file is opened by the 19th
    call and closed by the 21st. *)
Lemma opened_file_is_closed_witness :
  (run (notebook Sample.Qmean Sample.python_error
          (Sample.world Sample.one_month (inr tt)))).1 !! 18%nat
  = Some (EvOpen "automl.pkl" "wb")
  ∧ ∃ j : nat,
      (18 < j)%nat
      ∧ (run (notebook Sample.Qmean Sample.python_error
                (Sample.world Sample.one_month (inr tt)))).1 !! j
        = Some (EvClose 7%nat).
Proof.
  split; [by vm_compute|].
  apply (opened_file_is_closed Sample.Qmean Sample.python_error
           (Sample.world Sample.one_month (inr tt)) 18 "automl.pkl" "wb");
    by vm_compute.
Defined.

Lemma fit_and_predict_once_in_order_witness :
  (run (notebook Sample.Qmean Sample.python_error
          (Sample.world Sample.one_month (inr tt)))).1 !! 21%nat
  = Some (EvPredict 0%nat [23498])
  ∧ ∀ (j : nat) ev', (j < 21)%nat →
      (run (notebook Sample.Qmean Sample.python_error
              (Sample.world Sample.one_month (inr tt)))).1 !! j = Some ev' →
      raises (Sample.world Sample.one_month (inr tt)) ev' = None.
Proof.
  split; [by vm_compute|].
  refine (proj2 (proj2 (fit_and_predict_once_in_order
                          Sample.Qmean Sample.python_error
                          (Sample.world Sample.one_month (inr tt)) 21
                          (EvPredict 0%nat [23498]) _)) _);
    by vm_compute.
Defined.

Lemma loop_prints_every_config_witness :
  for_each [13%nat; 14%nat]
    (λ config,
       do_print (Sample.world Sample.one_month (inr tt)) [VObj config]) []
  = ([EvPrint [VObj 13%nat]; EvPrint [VObj 14%nat]], inr tt).
Proof.
  apply (loop_prints_every_config
           (Sample.world Sample.one_month (inr tt)) [13%nat; 14%nat] []).
  intros c _. reflexivity.
Defined.

Lemma loop_stops_at_first_failure_witness :
  for_each [13%nat; 14%nat; 15%nat]
    (λ config, do_print world_print_fails [VObj config]) []
  = ([EvPrint [VObj 13%nat]; EvPrint [VObj 14%nat]], inl "closed").
Proof.
  apply (loop_stops_at_first_failure world_print_fails [13%nat] [15%nat]
           14%nat "closed" []).
  - intros c ->%list_elem_of_singleton. reflexivity.
  - reflexivity.
Defined.
